(** * install_spinnaker.py: a shallow embedding and its properties

    The installer is a Python 2 script that drives the host through shell
    commands.  The embedding keeps the script's structure: every function of
    [install/install_spinnaker.py] that the properties below talk about is a
    definition of the same name, written in a state-and-exception monad over
    an explicit model of the host (files, directories, and the log of
    everything the script asked the host to do). *)

From Stdlib Require Import ZArith String Ascii List DecimalString Lia.
From stdpp Require Import gmap strings stringmap.

Open Scope string_scope.
Open Scope Z_scope.

(** ** Python [str] primitives

    Python 2 strings are byte strings; they are modelled by [string].  Only
    the operations the script uses are defined, each with Python's
    behaviour on the corner cases (negative slice bounds, [find] returning
    [-1], [or] on falsy values). *)

Module Str.

Definition nl : string := String "010"%char EmptyString.
Definition squote : string := String "039"%char EmptyString.
Definition dquote : string := String "034"%char EmptyString.

Definition len (s : string) : Z := Z.of_nat (String.length s).

(** [s.startswith(p)] *)
Fixpoint startswith (s p : string) : bool :=
  match p, s with
  | EmptyString, _ => true
  | String a p', String b s' => if Ascii.eqb a b then startswith s' p' else false
  | String _ _, EmptyString => false
  end.

Fixpoint drop (n : nat) (s : string) : string :=
  match n, s with
  | O, _ => s
  | S n', String _ s' => drop n' s'
  | S _, EmptyString => EmptyString
  end.

Fixpoint take (n : nat) (s : string) : string :=
  match n, s with
  | O, _ => EmptyString
  | S n', String a s' => String a (take n' s')
  | S _, EmptyString => EmptyString
  end.

(** Python turns a slice bound into a position of the string: a negative
    bound counts from the end, and the result is clamped to [0, len]. *)
Definition bound (s : string) (i : Z) : nat :=
  let i' := if i <? 0 then i + len s else i in
  Z.to_nat (Z.max 0 (Z.min i' (len s))).

(** [s[i:j]] *)
Definition slice (s : string) (i j : Z) : string :=
  let lo := bound s i in
  let hi := bound s j in
  take (hi - lo) (drop lo s).

(** [s[i:]] *)
Definition slice_from (s : string) (i : Z) : string :=
  drop (bound s i) s.

(** [s.find(sub)]: the lowest index where [sub] starts, or [-1]. *)
Fixpoint find_from (pos : Z) (s sub : string) : Z :=
  if startswith s sub then pos
  else match s with
       | EmptyString => -1
       | String _ s' => find_from (pos + 1) s' sub
       end.

Definition find (s sub : string) : Z := find_from 0 s sub.

(** The characters [str.strip()] and [str.split()] treat as white space. *)
Definition is_space (a : ascii) : bool :=
  match nat_of_ascii a with
  | 9%nat | 10%nat | 11%nat | 12%nat | 13%nat | 32%nat => true
  | _ => false
  end.

Fixpoint lstrip (s : string) : string :=
  match s with
  | String a s' => if is_space a then lstrip s' else s
  | EmptyString => EmptyString
  end.

Fixpoint rstrip (s : string) : string :=
  match s with
  | EmptyString => EmptyString
  | String a s' =>
      match rstrip s' with
      | EmptyString => if is_space a then EmptyString else String a EmptyString
      | r => String a r
      end
  end.

(** [s.strip()] *)
Definition strip (s : string) : string := rstrip (lstrip s).

(** [s.split()]: the maximal runs of characters that are not white space.
    [word] is the run being read, in order. *)
Fixpoint split_go (word : string) (s : string) : list string :=
  match s with
  | EmptyString =>
      match word with EmptyString => [] | _ => [word] end
  | String a s' =>
      if is_space a
      then match word with
           | EmptyString => split_go EmptyString s'
           | _ => word :: split_go EmptyString s'
           end
      else split_go (word +:+ String a EmptyString) s'
  end.

Definition split (s : string) : list string := split_go EmptyString s.

(** ['{0}'.format(n)] for an integer [n] *)
Definition of_Z (z : Z) : string := NilZero.string_of_int (Z.to_int z).

(** Truth value of an optional string: [None] and [''] are falsy. *)
Definition truthy (o : option string) : bool :=
  match o with
  | Some (String _ _) => true
  | _ => false
  end.

(** [a or b] on values that are a string or [None] *)
Definition or_ (a b : option string) : option string :=
  if truthy a then a else b.

(** [a or d] where [d] is a non-empty literal *)
Definition or_default (a : option string) (d : string) : string :=
  match or_ a (Some d) with
  | Some s => s
  | None => d
  end.

(** ['{0}'.format(v)] for a value that is a string or [None] *)
Definition format (v : option string) : string :=
  match v with
  | Some s => s
  | None => "None"
  end.

(** [''.join(parts)] *)
Definition concat (parts : list string) : string :=
  fold_right append EmptyString parts.

(** [sep.join(parts)] *)
Fixpoint join_with (sep : string) (parts : list string) : string :=
  match parts with
  | [] => EmptyString
  | [x] => x
  | x :: rest => x +:+ sep +:+ join_with sep rest
  end.

(** [posixpath.join(a, b)] *)
Definition join2 (a b : string) : string :=
  if startswith b "/" then b
  else if String.eqb a "" then b
  else if String.eqb (slice_from a (-1)) "/" then a +:+ b
  else a +:+ "/" +:+ b.

(** [os.path.join(a, *p)] *)
Definition path_join (a : string) (p : list string) : string :=
  fold_left join2 p a.

End Str.

(** ** The host

    What the script can observe and change: regular files with their
    content, directories, and the processes it started.  [log] records, in
    order, every request the script made; the properties about ordering and
    counting are statements about this log. *)

Inductive Event :=
| EvPrint (text : string)                (* the print statement *)
| EvStderr (text : string)               (* sys.stderr.write *)
| EvRunQuick (command : string)          (* run_quick, check_run_quick *)
| EvRunAndMonitor (command : string)     (* run_and_monitor *)
| EvCheckRunAndMonitor (command : string)(* check_run_and_monitor *)
| EvPopen (command : string)             (* subprocess.Popen *)
| EvCommunicate (pid : nat).             (* Popen.communicate *)

Record World := {
  files : gmap string string;
  dirs : gset string;
  spawned : nat;
  log : list Event
}.

(** The result object of [spinnaker.run]: the script reads [returncode]
    and [stdout]. *)
Record RunResult := {
  returncode : Z;
  stdout : string
}.

(** A [subprocess.Popen] object.  [start_copy_file] pipes only stderr, so
    [communicate] returns [None] for stdout. *)
Record Popen := {
  pid : nat;
  args : string
}.

(** The exceptions the script raises or lets through. *)
Inductive Exn :=
| ValueError (message : string)
| RuntimeError (message : string)
| AttributeError (message : string)
| IndexError (message : string)
| IOError (path : string).

(** Everything that is decided outside the script: how a command exits in
    a given world, what a command leaves on disk when the script does not
    know (the package manager, the copy tools, any command that exits
    non-zero), how a copy subprocess ends, and which exception the
    functions of [spinnaker.run] raise for a command that exited non-zero
    (that module is not part of the script, so neither the class nor the
    message of its error is known here). *)
Record Host := {
  host_run : string -> World -> RunResult;
  host_disk : string -> World -> gmap string string * gset string;
  host_wait : Popen -> World -> Z * string;
  host_error : string -> RunResult -> Exn
}.

(** What a command does to the disk.  For the commands whose meaning the
    script relies on, the effect of a run that exits with status 0 is
    spelled out; what such a command leaves behind when it exits non-zero
    is the host's, as is everything the package manager and the copy tools
    do.  Probes, listings and chmod change no content. *)
Inductive Action :=
| Observe                              (* probes, listings, chmod *)
| MakeDir (dir : string)               (* mkdir -p dir *)
| Move (source target : string)        (* mv source target *)
| Seed (temp dir target : string)      (* mkdir -p dir && cp temp target && rm -f temp *)
| External.                            (* dpkg, apt-get, cp, gsutil, aws s3 cp *)

Definition act (host : Host) (a : Action) (command : string) (status : Z)
  (w : World) : gmap string string * gset string :=
  match a with
  | External => host_disk host command w
  | Observe => (files w, dirs w)
  | MakeDir dir =>
      if status =? 0 then (files w, {[dir]} ∪ dirs w)
      else host_disk host command w
  | Move source target =>
      match status =? 0, files w !! source with
      | true, Some content =>
          (<[target := content]> (delete source (files w)), dirs w)
      | true, None => (files w, dirs w)
      | false, _ => host_disk host command w
      end
  | Seed temp dir target =>
      match status =? 0, files w !! temp with
      | true, Some content =>
          (<[target := content]> (delete temp (files w)), {[dir]} ∪ dirs w)
      | true, None => (files w, dirs w)
      | false, _ => host_disk host command w
      end
  end.

(** ** The monad of the script *)

Inductive Result (A : Type) :=
| Return (a : A)
| Raise (e : Exn).
Arguments Return {A} a.
Arguments Raise {A} e.

Definition Py (A : Type) : Type := World -> World * Result A.

Definition ret {A} (a : A) : Py A := fun w => (w, Return a).

Definition raise {A} (e : Exn) : Py A := fun w => (w, Raise e).

Definition bind {A B} (c : Py A) (k : A -> Py B) : Py B :=
  fun w =>
    match c w with
    | (w', Return a) => k a w'
    | (w', Raise e) => (w', Raise e)
    end.

Notation "x <- c ;; k" := (bind c (fun x => k))
  (at level 100, c at next level, right associativity).
Notation "c ;; k" := (bind c (fun _ => k))
  (at level 100, right associativity).

(** [for x in l: body x] *)
Fixpoint for_each {A} (l : list A) (body : A -> Py unit) : Py unit :=
  match l with
  | [] => ret tt
  | x :: l' => body x ;; for_each l' body
  end.

(** [for x in l: acc.append(f x)], returning the list built *)
Fixpoint collect {A B} (l : list A) (f : A -> Py B) : Py (list B) :=
  match l with
  | [] => ret []
  | x :: l' => y <- f x ;; ys <- collect l' f ;; ret (y :: ys)
  end.

Definition emit (e : Event) : Py unit :=
  fun w => ({| files := files w; dirs := dirs w; spawned := spawned w;
               log := log w ++ [e] |}, Return tt).

Definition print (text : string) : Py unit := emit (EvPrint text).

Definition stderr_write (text : string) : Py unit := emit (EvStderr text).

(** [os.path.exists(path)] *)
Definition exists_in (w : World) (path : string) : bool :=
  bool_decide (is_Some (files w !! path)) || bool_decide (path ∈ dirs w).

Definition os_path_exists (path : string) : Py bool :=
  fun w => (w, Return (exists_in w path)).

(** [with open(path, 'r') as f: content = f.read()] *)
Definition read_file (path : string) : Py string :=
  fun w =>
    match files w !! path with
    | Some content => (w, Return content)
    | None => (w, Raise (IOError path))
    end.

(** [fd, temp = tempfile.mkstemp(); os.write(fd, content); os.close(fd)]:
    a file that did not exist is created with the content; its name is
    returned. *)
Definition write_temp (content : string) : Py string :=
  fun w =>
    let temp := fresh_string_of_set "/tmp/tmp" (dom (files w) ∪ dirs w) in
    ({| files := <[temp := content]> (files w); dirs := dirs w;
        spawned := spawned w; log := log w |}, Return temp).

(** ** The two regular expressions

    The script searches with exactly two patterns.  Each is a literal, one
    group, and a closing character, so [re.search] is written out for them:
    [match_here] says whether the pattern matches at the head of a string
    (and how long the group is), and [search_from] tries every position
    from left to right, as [re.search] does.  In both patterns [.] stands
    for any character except a newline. *)

Module Re.

Inductive Pattern :=
| DefaultJvmOpts     (* newline, DEFAULT_JVM_OPTS=, group (.+), newline *)
| PackageList.       (* newline, PACKAGE_LIST=, double quote, lazy group, double quote *)

Definition is_newline (a : ascii) : bool := Ascii.eqb a "010"%char.
Definition is_dquote (a : ascii) : bool := Ascii.eqb a "034"%char.

(** The literal that opens the pattern. *)
Definition literal (p : Pattern) : string :=
  match p with
  | DefaultJvmOpts => Str.nl +:+ "DEFAULT_JVM_OPTS="
  | PackageList => Str.nl +:+ "PACKAGE_LIST=" +:+ Str.dquote
  end.

(** Number of leading characters that are not a newline. *)
Fixpoint line_length (s : string) : nat :=
  match s with
  | EmptyString => O
  | String a s' => if is_newline a then O else S (line_length s')
  end.

(** A greedy [.+] followed by a newline: the group is the rest of the line; it must not be
    empty and the line must end with a newline (not with the end of the
    string). *)
Definition greedy_line (s : string) : option nat :=
  let n := line_length s in
  if Nat.eqb n 0 then None
  else match Str.drop n s with
       | String _ _ => Some n
       | EmptyString => None
       end.

(** A lazy run of [.] followed by a double quote: the group stops at the first double quote; no
    newline may come before it. *)
Fixpoint lazy_quoted (s : string) : option nat :=
  match s with
  | EmptyString => None
  | String a s' =>
      if is_dquote a then Some O
      else if is_newline a then None
      else match lazy_quoted s' with
           | Some n => Some (S n)
           | None => None
           end
  end.

(** Length of group 1 when the pattern matches at the head of [s]. *)
Definition match_here (p : Pattern) (s : string) : option nat :=
  if Str.startswith s (literal p)
  then let rest := Str.drop (String.length (literal p)) s in
       match p with
       | DefaultJvmOpts => greedy_line rest
       | PackageList => lazy_quoted rest
       end
  else None.

(** A match object: the searched string and the spans of the whole match
    and of group 1. *)
Record Match := {
  subject : string;
  start0 : nat;
  end0 : nat;
  start1 : nat;
  end1 : nat
}.

Fixpoint search_from (p : Pattern) (whole : string) (pos : nat) (s : string)
  : option Match :=
  match match_here p s with
  | Some n =>
      let g := (pos + String.length (literal p))%nat in
      Some {| subject := whole; start0 := pos; end0 := S (g + n);
              start1 := g; end1 := (g + n)%nat |}
  | None =>
      match s with
      | EmptyString => None
      | String _ s' => search_from p whole (S pos) s'
      end
  end.

(** [re.search(p, content)] *)
Definition search (p : Pattern) (content : string) : option Match :=
  search_from p content O content.

(** [m.group(0)] and [m.group(1)] *)
Definition group0 (m : Match) : string :=
  Str.take (end0 m - start0 m) (Str.drop (start0 m) (subject m)).

Definition group1 (m : Match) : string :=
  Str.take (end1 m - start1 m) (Str.drop (start1 m) (subject m)).

End Re.

(** ** The script *)

(** The [argparse] namespace, with the attributes the script reads. *)
Record Options := {
  spinnaker_dir : option string;
  release_path : option string;
  region : option string;
  dependencies : bool;
  spinnaker : bool
}.

Definition with_disk (w : World) (d : gmap string string * gset string)
  (e : Event) : World :=
  {| files := fst d; dirs := snd d; spawned := spawned w;
     log := log w ++ [e] |}.

Section Script.

Variable host : Host.

(** [install_runtime_dependencies.check_options], from a module that the
    script imports; whatever it does, it does it first. *)
Variable runtime_check_options : Options -> Py unit.

(** Runs a command line on the host: the host decides the exit status and
    the captured output, [a] says what the command does to the disk. *)
Definition shell (ev : string -> Event) (command : string) (a : Action)
  : Py RunResult :=
  fun w =>
    let r := host_run host command w in
    (with_disk w (act host a command (returncode r) w) (ev command), Return r).

(** Modelled from the spec: [spinnaker.run.run_quick] is imported, not
    defined here; it runs the command and returns a result with the exit
    code and the captured output, without raising. *)
Definition run_quick (command : string) (a : Action) : Py RunResult :=
  shell EvRunQuick command a.

(** Modelled from the spec: [spinnaker.run.check_run_quick] is imported, not
    defined here; as [run_quick], but a non-zero exit code raises an error
    made from the command and its result. *)
Definition check_run_quick (command : string) (a : Action) : Py RunResult :=
  r <- run_quick command a ;;
  if returncode r =? 0 then ret r
  else raise (host_error host command r).

(** Modelled from the spec: [spinnaker.run.run_and_monitor] is imported, not
    defined here; it runs the command to completion and returns the result,
    whatever the exit code. *)
Definition run_and_monitor (command : string) (a : Action) : Py RunResult :=
  shell EvRunAndMonitor command a.

(** Modelled from the spec: [spinnaker.run.check_run_and_monitor] is
    imported, not defined here; as [run_and_monitor], but a non-zero exit
    code is fatal. *)
Definition check_run_and_monitor (command : string) (a : Action)
  : Py RunResult :=
  r <- shell EvCheckRunAndMonitor command a ;;
  if returncode r =? 0 then ret r
  else raise (host_error host command r).

(** [subprocess.Popen(command, stderr=subprocess.PIPE, shell=True)] *)
Definition popen (command : string) : Py Popen :=
  fun w =>
    ({| files := files w; dirs := dirs w; spawned := S (spawned w);
        log := log w ++ [EvPopen command] |},
     Return {| pid := spawned w; args := command |}).

(** [stdout, stderr = j.communicate()] followed by a read of
    [j.returncode]: waits for the process.  Only stderr was piped. *)
Definition communicate (j : Popen)
  : Py (option string * option string * Z) :=
  fun w =>
    let '(status, err) := host_wait host j w in
    (with_disk w (host_disk host (args j) w) (EvCommunicate (pid j)),
     Return (None, Some err, status)).

Definition get_user_config_dir (options : Options) : string :=
  "/root/.spinnaker".

Definition safe_mkdir (dir : string) : Py unit :=
  result <- run_quick ("sudo mkdir -p " +:+ Str.dquote +:+ dir +:+ Str.dquote)
                      (MakeDir dir) ;;
  if negb (returncode result =? 0)
  then raise (RuntimeError
                ("Could not create directory " +:+ Str.dquote +:+ dir
                 +:+ Str.dquote +:+ ": " +:+ stdout result))
  else ret tt.

Definition get_spinnaker_dir (options : Options) : Py string :=
  let path := Str.or_default (spinnaker_dir options) "/opt/spinnaker" in
  present <- os_path_exists path ;;
  (if negb present
   then print ("Creating spinnaker_dir=" +:+ path) ;; safe_mkdir path
   else ret tt) ;;
  ret path.

Definition get_config_install_dir (options : Options) : Py string :=
  root <- get_spinnaker_dir options ;;
  ret (Str.path_join root ["config"]).

Definition path_exists (path : string) : Py bool :=
  if Str.startswith path "gs://"
  then result <- run_quick ("gsutil ls " +:+ path) Observe ;;
       ret (returncode result =? 0)
  else if Str.startswith path "s3://"
  then result <- run_quick ("awscli s3 ls " +:+ path) Observe ;;
       ret (returncode result =? 0)
  else os_path_exists path.

Definition start_copy_file (options : Options) (source target : string)
  : Py Popen :=
  let q := Str.dquote in
  let command :=
    if Str.startswith source "gs://"
    then "sudo bash -c " +:+ q +:+ "HOME=$HOME PATH=$PATH gsutil -m -q cp "
         +:+ q +:+ source +:+ q +:+ " " +:+ q +:+ target +:+ q +:+ q
    else if Str.startswith source "s3://"
    then "sudo bash -c " +:+ q +:+ "HOME=$HOME PATH=$PATH aws s3 cp --region "
         +:+ Str.format (region options) +:+ " "
         +:+ q +:+ source +:+ q +:+ " " +:+ q +:+ target +:+ q +:+ q
    else "sudo cp " +:+ q +:+ source +:+ q +:+ " " +:+ q +:+ target +:+ q in
  popen command.

Definition check_wait_for_copy_complete (jobs : list Popen) : Py unit :=
  for_each jobs (fun j =>
    joined <- communicate j ;;
    let '(out, err, status) := joined in
    if negb (status =? 0)
    then let output := Str.or_default (Str.or_ out err) "" in
         let error := "COPY FAILED with " +:+ Str.of_Z status +:+ ": "
                      +:+ Str.strip output in
         raise (RuntimeError error)
    else ret tt).

Definition check_google_path (path : string) : Py unit :=
  check_result <- run_quick "gsutil --version" Observe ;;
  (if negb (returncode check_result =? 0)
   then raise (RuntimeError (Str.concat
     [Str.nl;
      "ERROR: gsutil is required to retrieve the spinnaker release from GCS.";
      Str.nl; "       If you already have gsutil, fix your path.";
      Str.nl; "       Otherwise follow the instructions at";
      Str.nl;
      "       https://cloud.google.com/storage/docs/gsutil_install?hl=en#install";
      Str.nl; "       and be sure you run gsutil config.";
      Str.nl; "       Then run again."; Str.nl]))
   else ret tt) ;;
  result <- run_quick ("gsutil ls " +:+ path) Observe ;;
  if negb (returncode result =? 0)
  then raise (RuntimeError (Str.concat
     ["The path "; Str.dquote; path; Str.dquote;
      " does not seem to exist within GCS. gsutil ls returned ";
      Str.dquote; Str.strip (stdout result); Str.dquote; Str.nl]))
  else ret tt.

Definition check_s3_path (path : string) : Py unit :=
  check_result <- run_quick "aws --version" Observe ;;
  (if negb (returncode check_result =? 0)
   then raise (RuntimeError (Str.concat
     [Str.nl;
      "ERROR: aws is required to retrieve the spinnaker release from S3.";
      Str.nl; "       If you already have aws, fix your path.";
      Str.nl; "       Otherwise install awscli with "; Str.dquote;
      "sudo apt-get install awscli"; Str.dquote; ".";
      Str.nl; "       Then run again."; Str.nl]))
   else ret tt) ;;
  result <- run_quick ("aws s3 ls " +:+ path) Observe ;;
  if negb (returncode result =? 0)
  then raise (RuntimeError (Str.concat
     ["The path "; Str.dquote; path; Str.dquote;
      " does not seem to exist within S3. aws s3 ls returned ";
      Str.dquote; Str.strip (stdout result); Str.dquote; Str.nl]))
  else ret tt.

Definition check_release_dir (options : Options) : Py unit :=
  match release_path options with
  | Some (String c rest) =>
      let path := String c rest in
      present <- os_path_exists path ;;
      if present then ret tt
      else if Str.startswith path "gs://" then check_google_path path
      else if Str.startswith path "s3://" then check_s3_path path
      else raise (ValueError
                    ("Unknown path --release_path=" +:+ path +:+ Str.nl))
  | _ =>
      raise (ValueError
        "--release_path cannot be empty. Either specify a --release or a --release_path.")
  end.

Definition check_options (options : Options) : Py unit :=
  runtime_check_options options ;;
  check_release_dir options ;;
  match release_path options with
  | Some path =>
      if Str.startswith path "s3://" && negb (Str.truthy (region options))
      then raise (ValueError "--region is required with an S3 release-uri.")
      else ret tt
  | None =>
      raise (AttributeError "'NoneType' object has no attribute 'startswith'")
  end.

(** [value[0]] *)
Definition first_char (value : string) : Py ascii :=
  match value with
  | String a _ => ret a
  | EmptyString => raise (IndexError "string index out of range")
  end.

(** The directive with both directories spelled out, as the script
    formats it between two [quote] characters. *)
Definition directive (quote : string) : string :=
  let root := "/opt/spinnaker/config" in
  let home := "/root/.spinnaker" in
  quote +:+ "-Dspring.config.location=" +:+ root +:+ "/," +:+ home +:+ "/"
  +:+ quote.

(** The pieces of the rewritten launch script, in the order the script
    appends them to [new_content]; [first] is [value[0]]. *)
Definition new_content (content : string) (m : Re.Match) (first : ascii)
  : list string :=
  let value := Re.group1 m in
  let offset :=
    if Ascii.eqb first "039"%char || Ascii.eqb first "034"%char
    then 1 else 0 in
  let quote := if Ascii.eqb first "039"%char then Str.dquote else Str.squote in
  [ Str.slice content 0 (Z.of_nat (Re.start1 m));
    Str.slice value 0 offset;
    directive quote;
    " ";
    Str.slice_from content (Z.of_nat (Re.start1 m) + offset) ].

Definition inject_spring_config_location (options : Options)
  (subsystem : string) : Py unit :=
  if String.eqb subsystem "deck" then ret tt
  else
    let path := Str.path_join "/opt" [subsystem; "bin"; subsystem] in
    content <- read_file path ;;
    match Re.search Re.DefaultJvmOpts content with
    | None => raise (ValueError ("Expected DEFAULT_JVM_OPTS in " +:+ path))
    | Some m =>
        let value := Re.group1 m in
        if 0 <=? Str.find value "-Dspring.config.location="
        then stderr_write
               ("WARNING: spring.config.location was already explicitly defined."
                +:+ Str.nl +:+ "Leaving " +:+ Re.group0 m +:+ Str.nl)
        else
          first <- first_char value ;;
          temp <- write_temp (Str.concat (new_content content m first)) ;;
          check_run_quick ("chmod --reference=" +:+ path +:+ " " +:+ temp)
                          Observe ;;
          check_run_quick ("sudo mv " +:+ temp +:+ " " +:+ path)
                          (Move temp path) ;;
          ret tt
    end.

(** Lines 307-310: the package list of [release_config.cfg].  [re.search]
    returns [None] when the pattern is absent, and the script calls
    [.group(1)] on the result without looking at it. *)
Definition read_package_list (spinnaker_dir : string) : Py (list string) :=
  content <- read_file (Str.path_join spinnaker_dir ["release_config.cfg"]) ;;
  match Re.search Re.PackageList content with
  | Some m => ret (Str.split (Re.group1 m))
  | None =>
      raise (AttributeError "'NoneType' object has no attribute 'group'")
  end.

(** [os.path.join(bucket, pkg)] where [bucket] may be [None]. *)
Definition join_bucket (bucket : option string) (pkg : string) : Py string :=
  match bucket with
  | Some b => ret (Str.path_join b [pkg])
  | None =>
      if Str.startswith pkg "/" then ret pkg
      else raise (AttributeError
                    "'NoneType' object has no attribute 'endswith'")
  end.

(** Line 334: the install directory name of a package. *)
Definition subsystem_of (pkg : string) : string :=
  Str.slice pkg 0 (Str.find pkg "_").

Definition repair : string := "sudo apt-get install -f -y".

(** Lines 326-334: the body of the installation loop. *)
Definition install_package (options : Options) (package_dir pkg : string)
  : Py unit :=
  print ("Installing " +:+ pkg +:+ ".") ;;
  run_and_monitor ("sudo dpkg -i " +:+ Str.path_join package_dir [pkg])
                  External ;;
  check_run_and_monitor repair External ;;
  inject_spring_config_location options (subsystem_of pkg).

Definition _install_spinnaker_packages_helper (options : Options)
  (bucket : option string) : Py unit :=
  if negb (spinnaker options) then ret tt
  else
    print ("Installing Spinnaker components from " +:+ Str.format bucket
           +:+ ".") ;;
    install_config_dir <- get_config_install_dir options ;;
    spinnaker_dir <- get_spinnaker_dir options ;;
    package_list <- read_package_list spinnaker_dir ;;
    print "Downloading spinnaker release packages..." ;;
    let package_dir := Str.path_join spinnaker_dir ["install"] in
    safe_mkdir package_dir ;;
    jobs <- collect package_list (fun pkg =>
              source <- join_bucket bucket pkg ;;
              start_copy_file options source package_dir) ;;
    check_wait_for_copy_complete jobs ;;
    for_each package_list (install_package options package_dir) ;;
    check_run_and_monitor repair External ;;
    ret tt.

Definition make_default_spinnaker_yml_from_path (prototype_path : string)
  : Py string :=
  read_file prototype_path.

(** Lines 366-389: add a spinnaker-local.yml if there is none. *)
Definition provide_local_yml (options : Options) : Py unit :=
  let user_config_dir := get_user_config_dir options in
  install_config_dir <- get_config_install_dir options ;;
  let local_yml_path := Str.path_join user_config_dir ["spinnaker-local.yml"] in
  present <- os_path_exists local_yml_path ;;
  if negb present
  then
    print "Copying a default spinnaker-local.yml" ;;
    let prototype_path :=
      Str.path_join install_config_dir ["default-spinnaker-local.yml"] in
    local_yml_content <- make_default_spinnaker_yml_from_path prototype_path ;;
    temp <- write_temp local_yml_content ;;
    let commands :=
      [ "mkdir -p " +:+ user_config_dir;
        "cp " +:+ temp +:+ " " +:+ user_config_dir +:+ "/spinnaker-local.yml";
        "chmod 600 " +:+ user_config_dir +:+ "/spinnaker-local.yml";
        "rm -f " +:+ temp ] in
    check_run_quick
      ("sudo bash -c " +:+ Str.dquote +:+ Str.join_with " && " commands
       +:+ Str.dquote)
      (Seed temp user_config_dir
            (user_config_dir +:+ "/spinnaker-local.yml")) ;;
    print "Finished installing Spinnaker."
  else ret tt.

(** Lines 349-364: everything [install_spinnaker] does before it looks for
    the user's spinnaker-local.yml. *)
Definition install_release (options : Options) : Py unit :=
  let bucket := release_path options in
  _install_spinnaker_packages_helper options bucket ;;
  spinnaker_dir <- get_spinnaker_dir options ;;
  let install_dir := Str.path_join spinnaker_dir ["install"] in
  let script_dir := Str.path_join spinnaker_dir ["scripts"] in
  print "Installing spinnaker package..." ;;
  check_run_quick ("sudo chmod +x " +:+ script_dir +:+ "/*.sh") Observe ;;
  check_run_quick ("sudo chmod +x " +:+ install_dir +:+ "/*.sh") Observe ;;
  ret tt.

Definition install_spinnaker (options : Options) : Py unit :=
  if negb (spinnaker options || dependencies options) then ret tt
  else install_release options ;; provide_local_yml options.

End Script.

Arguments shell host ev command a w /.
Arguments run_quick host command a w /.
Arguments run_and_monitor host command a w /.

(** ** Concrete hosts and disks

    Used to run the script on explicit inputs. *)

Module Sample.

Definition unchanged (command : string) (w : World)
  : gmap string string * gset string := (files w, dirs w).

(** One error [spinnaker.run] could raise for a failed command. *)
Definition failure (command : string) (r : RunResult) : Exn :=
  RuntimeError (command +:+ " exited with " +:+ Str.of_Z (returncode r)
                +:+ ": " +:+ stdout r).

(** Every command exits 0 and the package manager leaves the disk alone. *)
Definition calm : Host :=
  {| host_run := fun _ _ => {| returncode := 0; stdout := "" |};
     host_disk := unchanged;
     host_wait := fun _ _ => (0, "");
     host_error := failure |}.

(** The first copy that was started exits 1; the others exit 0. *)
Definition first_copy_fails : Host :=
  {| host_run := fun _ _ => {| returncode := 0; stdout := "" |};
     host_disk := unchanged;
     host_wait := fun j _ =>
       match pid j with
       | O => (1, "No such object" +:+ Str.nl)
       | _ => (0, "")
       end;
     host_error := failure |}.

(** [dpkg -i] always exits 1; every other command exits 0. *)
Definition dpkg_fails : Host :=
  {| host_run := fun command _ =>
       if Str.startswith command "sudo dpkg -i "
       then {| returncode := 1; stdout := "dependency problems" |}
       else {| returncode := 0; stdout := "" |};
     host_disk := unchanged;
     host_wait := fun _ _ => (0, "");
     host_error := failure |}.

(** [apt-get install -f -y] always exits 100. *)
Definition repair_fails : Host :=
  {| host_run := fun command _ =>
       if String.eqb command repair
       then {| returncode := 100; stdout := "broken packages" |}
       else {| returncode := 0; stdout := "" |};
     host_disk := unchanged;
     host_wait := fun _ _ => (0, "");
     host_error := failure |}.

Definition no_runtime_check (options : Options) : Py unit := ret tt.

Definition defaults : Options :=
  {| spinnaker_dir := None; release_path := Some "/mnt/release";
     region := None; dependencies := true; spinnaker := true |}.

Definition s3_without_region : Options :=
  {| spinnaker_dir := None; release_path := Some "s3://bucket/release";
     region := None; dependencies := true; spinnaker := true |}.

Definition relocated : Options :=
  {| spinnaker_dir := Some "/srv/spinnaker";
     release_path := Some "/mnt/release";
     region := None; dependencies := true; spinnaker := true |}.

(** A launch script as the packages ship it: the options are in single
    quotes and hold one double-quoted option. *)
Definition gate_script : string :=
  Str.concat
    [ "#!/usr/bin/env bash"; Str.nl;
      "DEFAULT_JVM_OPTS='"; Str.dquote; "-Djava.security.egd=file:/dev/urandom";
      Str.dquote; "'"; Str.nl;
      "exec java $DEFAULT_JVM_OPTS"; Str.nl ].

Definition release_config : string :=
  Str.concat
    [ "RELEASE=1.0"; Str.nl;
      "PACKAGE_LIST="; Str.dquote;
      "gate_1.0_all.deb orca_1.0_all.deb deck_2.0_all.deb"; Str.dquote;
      Str.nl ].

Definition empty_disk : World :=
  {| files := ∅; dirs := ∅; spawned := 0; log := [] |}.

(** A machine on which the release was unpacked and installed before. *)
Definition installed : World :=
  {| files :=
       <["/opt/spinnaker/release_config.cfg" := release_config]>
       (<["/opt/gate/bin/gate" := gate_script]>
       (<["/opt/orca/bin/orca" := gate_script]>
       (<["/root/.spinnaker/spinnaker-local.yml" := "services: {}"]> ∅)));
     dirs := {["/opt/spinnaker"]} ∪ {["/mnt/release"]};
     spawned := 0;
     log := [] |}.

(** The same machine with the release under [/srv/spinnaker]. *)
Definition installed_elsewhere : World :=
  {| files := <["/opt/gate/bin/gate" := gate_script]> ∅;
     dirs := {["/srv/spinnaker"]};
     spawned := 0;
     log := [] |}.

Definition two_jobs : list Popen :=
  [ {| pid := 0; args := "sudo cp a b" |};
    {| pid := 1; args := "sudo cp c b" |} ].

End Sample.

(** ** Vocabulary of the properties *)

(** Inserting [ins] at position [k] *)
Definition splice (k : nat) (ins s : string) : string :=
  Str.take k s +:+ ins +:+ Str.drop k s.

(** A string without a newline *)
Definition one_line (ins : string) : Prop :=
  Re.line_length ins = String.length ins.

Definition jvm_literal_length : nat :=
  String.length (Re.literal Re.DefaultJvmOpts).

Definition key : string := "-Dspring.config.location=".

(** What the script inserts, given the first character of the value. *)
Definition other_quote (first : ascii) : string :=
  if Ascii.eqb first "039"%char then Str.dquote else Str.squote.

Definition skipped (first : ascii) : nat :=
  if Ascii.eqb first "039"%char || Ascii.eqb first "034"%char
  then 1%nat else 0%nat.

Definition inserted (first : ascii) : string :=
  directive (other_quote first) +:+ " ".

Definition patched_match (content1 : string) (m : Re.Match) (first : ascii)
  : Re.Match :=
  {| Re.subject := content1;
     Re.start0 := Re.start0 m;
     Re.end0 := (Re.end0 m + String.length (inserted first))%nat;
     Re.start1 := Re.start1 m;
     Re.end1 := (Re.end1 m + String.length (inserted first))%nat |}.

Definition region_error : Exn :=
  ValueError "--region is required with an S3 release-uri.".

Definition launch_script (subsystem : string) : string :=
  Str.path_join "/opt" [subsystem; "bin"; subsystem].

Definition warning (m : Re.Match) : string :=
  "WARNING: spring.config.location was already explicitly defined."
  +:+ Str.nl +:+ "Leaving " +:+ Re.group0 m +:+ Str.nl.

(** The sample machine after one run of the patch on gate. *)
Definition patched_once : World :=
  fst (inject_spring_config_location Sample.calm Sample.defaults "gate"
         Sample.installed).

(** The installation root the options select. *)
Definition root_of (options : Options) : string :=
  Str.or_default (spinnaker_dir options) "/opt/spinnaker".

Definition local_yml : string :=
  Str.path_join "/root/.spinnaker" ["spinnaker-local.yml"].

(** A release configuration without the package list. *)
Definition config_without_list : string :=
  "RELEASE=1.0" +:+ Str.nl.

Definition unconfigured : World :=
  {| files := <["/opt/spinnaker/release_config.cfg" := config_without_list]> ∅;
     dirs := {["/opt/spinnaker"]};
     spawned := 0;
     log := [] |}.

Definition no_group : Exn :=
  AttributeError "'NoneType' object has no attribute 'group'".

(** The requests that go to the package manager. *)
Definition is_package_manager (e : Event) : bool :=
  match e with
  | EvRunAndMonitor _ | EvCheckRunAndMonitor _ => true
  | _ => false
  end.

Definition package_manager_log (w : World) : list Event :=
  List.filter is_package_manager (log w).

Definition is_repair (e : Event) : bool :=
  match e with
  | EvCheckRunAndMonitor command => String.eqb command repair
  | _ => false
  end.

(** Number of dependency-repair invocations so far. *)
Definition repairs (w : World) : nat :=
  length (List.filter is_repair (log w)).

Definition dpkg (package_dir pkg : string) : string :=
  "sudo dpkg -i " +:+ Str.path_join package_dir [pkg].

(** The direct install of each package, each followed by a repair. *)
Definition installs (package_dir : string) (package_list : list string)
  : list Event :=
  flat_map (fun pkg => [ EvRunAndMonitor (dpkg package_dir pkg);
                         EvCheckRunAndMonitor repair ]) package_list.

(** A computation that asks nothing of the package manager. *)
Definition quiet {A} (c : Py A) : Prop :=
  forall w w' r, c w = (w', r) -> package_manager_log w' = package_manager_log w.

Definition joined (jobs : list Popen) : list Event :=
  map (fun j => EvCommunicate (pid j)) jobs.

Definition empty_release_path : Exn :=
  ValueError
    "--release_path cannot be empty. Either specify a --release or a --release_path.".

(** The name [write_temp] picks in a given state. *)
Definition temp_name (w : World) : string :=
  fresh_string_of_set "/tmp/tmp" (dom (files w) ∪ dirs w).

(** The prototype of the user's configuration. *)
Definition prototype_of (options : Options) : string :=
  Str.path_join (Str.path_join (root_of options) ["config"])
    ["default-spinnaker-local.yml"].

(** A launch script whose options are not quoted. *)
Definition plain_script : string :=
  Str.concat [ "#!/bin/sh"; Str.nl; "DEFAULT_JVM_OPTS=-Xmx1g"; Str.nl;
               "exec java $DEFAULT_JVM_OPTS"; Str.nl ].

Definition plain_disk : World :=
  {| files := <["/opt/echo/bin/echo" := plain_script]> ∅; dirs := ∅;
     spawned := 0; log := [] |}.

(** Only the prototype is on disk, under the default root. *)
Definition fresh_install : World :=
  {| files := <["/opt/spinnaker/config/default-spinnaker-local.yml"
                := "services: {}"]> ∅;
     dirs := {["/opt/spinnaker"]}; spawned := 0; log := [] |}.

(** [chmod] always exits 1; every other command exits 0. *)
Definition chmod_fails : Host :=
  {| host_run := fun command _ =>
       if Str.startswith command "chmod "
       then {| returncode := 1; stdout := "Operation not permitted" |}
       else {| returncode := 0; stdout := "" |};
     host_disk := Sample.unchanged;
     host_wait := fun _ _ => (0, "");
     host_error := Sample.failure |}.

(** A computation that starts no process. *)
Definition idle {A} (c : Py A) : Prop :=
  forall w w' r, c w = (w', r) -> spawned w' = spawned w.

Definition only_dependencies : Options :=
  {| spinnaker_dir := None; release_path := Some "/mnt/release";
     region := None; dependencies := true; spinnaker := false |}.

(** A string with a white space character in it. *)
Fixpoint has_space (s : string) : bool :=
  match s with
  | EmptyString => false
  | String a s' => Str.is_space a || has_space s'
  end.

(** A string with a double quote in it. *)
Fixpoint has_dquote (s : string) : bool :=
  match s with
  | EmptyString => false
  | String a s' => Re.is_dquote a || has_dquote s'
  end.

(** A package file name as a release configuration lists it. *)
Definition is_word (t : string) : Prop := t <> "" /\ has_space t = false.

(** Two hosts that differ at most in how a direct install exits and in
    what it prints. *)
Definition differ_in_dpkg_only (host other : Host) : Prop :=
  (forall command w, host_disk other command w = host_disk host command w)
  /\ (forall j w, host_wait other j w = host_wait host j w)
  /\ (forall command r, host_error other command r = host_error host command r)
  /\ (forall command w,
        Str.startswith command "sudo dpkg -i " = false ->
        host_run other command w = host_run host command w).

(** On this host the repair that is invoked after [n] earlier ones exits
    non-zero. *)
Definition repair_fails_after (host : Host) (n : nat) : Prop :=
  forall w, repairs w = n -> returncode (host_run host repair w) <> 0.

(** A run that ended in the error of a repair invoked after [n] earlier
    ones, with nothing done after it. *)
Definition aborted_by_repair {A} (host : Host) (n : nat) (w' : World)
  (r : Result A) : Prop :=
  exists w0,
    repairs w0 = n
    /\ returncode (host_run host repair w0) <> 0
    /\ log w' = (log w0 ++ [EvCheckRunAndMonitor repair])%list
    /\ r = Raise (host_error host repair (host_run host repair w0)).

(** A computation in which a repair invoked after [n] earlier ones, if it
    comes to that, is the last thing done. *)
Definition stops_at {A} (host : Host) (n : nat) (c : Py A) : Prop :=
  forall w w' r,
    (repairs w <= n)%nat -> c w = (w', r) ->
    (repairs w' <= n)%nat \/ aborted_by_repair host n w' r.

(** A computation that invokes no repair. *)
Definition mends_nothing {A} (c : Py A) : Prop :=
  forall w w' r, c w = (w', r) -> repairs w' = repairs w.

(** [apt-get install -f -y] exits 100 when as many repairs went before as
    there are packages in the sample release, and 0 otherwise: only the
    last pass fails. *)
Definition last_repair_fails : Host :=
  {| host_run := fun command w =>
       if String.eqb command repair && Nat.eqb (repairs w) 3
       then {| returncode := 100; stdout := "broken packages" |}
       else {| returncode := 0; stdout := "" |};
     host_disk := Sample.unchanged;
     host_wait := fun _ _ => (0, "");
     host_error := Sample.failure |}.

(** The requests that print or run a short command. *)
Definition is_plain (e : Event) : bool :=
  match e with
  | EvPrint _ | EvStderr _ | EvRunQuick _ => true
  | _ => false
  end.

(** A computation that only prints and runs short commands: it starts no
    process, waits for none and asks nothing of the package manager. *)
Definition plainly_after (w w' : World) : Prop :=
  spawned w' = spawned w
  /\ exists l, log w' = (log w ++ l)%list /\ forallb is_plain l = true.

Definition plain {A} (c : Py A) : Prop :=
  forall w w' r, c w = (w', r) -> plainly_after w w'.

(** What the package step does once the install directory is there: it
    starts the copies, waits for them, installs the packages and runs the
    last repair. *)
Definition copy_and_install (host : Host) (options : Options)
  (bucket : option string) (package_dir : string)
  (package_list : list string) : Py unit :=
  jobs <- collect package_list (fun pkg =>
            source <- join_bucket bucket pkg ;;
            start_copy_file options source package_dir) ;;
  check_wait_for_copy_complete host jobs ;;
  for_each package_list (install_package host options package_dir) ;;
  check_run_and_monitor host repair External ;;
  ret tt.

(** The requests about copy processes: starting one, waiting for one. *)
Definition is_copy (e : Event) : bool :=
  match e with
  | EvPopen _ | EvCommunicate _ => true
  | _ => false
  end.

Definition copy_log (w : World) : list Event :=
  List.filter is_copy (log w).

(** A computation that neither starts a copy nor waits for one. *)
Definition copyless {A} (c : Py A) : Prop :=
  forall w w' r, c w = (w', r) -> copy_log w' = copy_log w.

Definition quoted (s : string) : string := Str.dquote +:+ s +:+ Str.dquote.

(** The command line of a copy, by the scheme of its source: gsutil and
    the aws client run in a shell that keeps the caller's HOME and PATH, a
    local path is copied with cp. *)
Definition copy_command (options : Options) (source target : string)
  : string :=
  let paths := quoted source +:+ " " +:+ quoted target in
  let as_caller tool :=
    "sudo bash -c "
    +:+ quoted ("HOME=$HOME PATH=$PATH " +:+ tool +:+ " " +:+ paths) in
  if Str.startswith source "gs://" then as_caller "gsutil -m -q cp"
  else if Str.startswith source "s3://"
  then as_caller ("aws s3 cp --region " +:+ Str.format (region options))
  else "sudo cp " +:+ paths.

(** * Properties *)

Open Scope list_scope.

(** ** Waiting for the copies *)

(** C1, evaluated on two started copies of which the first exits 1: the
    script raises as soon as it has joined the failed copy.  The error
    carries that copy's exit code and output, but the second copy is never
    joined, although the function's docstring promises to wait for each
    subprocess. *)
Theorem wait_raises_before_joining_the_rest :
  let r := check_wait_for_copy_complete Sample.first_copy_fails
             Sample.two_jobs Sample.empty_disk in
  snd r = Raise (RuntimeError "COPY FAILED with 1: No such object")
  /\ log (fst r) = [EvCommunicate 0]
  /\ ~ In (EvCommunicate 1) (log (fst r)).
Proof.
  vm_compute. split; [reflexivity|]. split; [reflexivity|].
  intros [H|[]]. discriminate H.
Qed.

(** ** Validating the options *)

Lemma startswith_s3_not_gs path :
  Str.startswith path "s3://" = true -> Str.startswith path "gs://" = false.
Proof.
  destruct path as [|[[] [] [] [] [] [] [] []] p]; simpl; intros H;
    try discriminate H; reflexivity.
Qed.

Lemma startswith_nonempty path p a :
  Str.startswith path (String a p) = true -> exists c rest, path = String c rest.
Proof. destruct path; simpl; [discriminate|eauto]. Qed.

(** C2 as stated fails on an S3 release path that is not a local path, on
    a host where the aws client answers: the script first runs the client
    probe and the listing of the path, and only then raises the region
    error. *)
Lemma region_error_comes_after_the_listing :
  let r := check_options Sample.calm Sample.no_runtime_check
             Sample.s3_without_region Sample.empty_disk in
  release_path Sample.s3_without_region = Some "s3://bucket/release"
  /\ region Sample.s3_without_region = None
  /\ snd r = Raise region_error
  /\ log (fst r) = [ EvRunQuick "aws --version";
                     EvRunQuick "aws s3 ls s3://bucket/release" ].
Proof. vm_compute. repeat split. Qed.

(** C2, amended: with an S3 release path and no region, validation always
    ends in an error and leaves the disk as it was.  The region error is
    raised after the release path was checked: at once when the path exists
    locally; otherwise only when the client probe was run and exited 0 and
    then the listing of the path was run and exited 0.  A probe that exits
    non-zero ends validation with its own error before the listing, and a
    listing that exits non-zero with its own error after the probe. *)
Theorem check_options_s3_without_region
  host runtime_check options path w w0 :
  release_path options = Some path ->
  Str.startswith path "s3://" = true ->
  Str.truthy (region options) = false ->
  runtime_check options w = (w0, Return tt) ->
  let probe := EvRunQuick "aws --version" in
  let listing := EvRunQuick ("aws s3 ls " +:+ path) in
  let probed := host_run host "aws --version" w0 in
  let listed :=
    host_run host ("aws s3 ls " +:+ path)
      (with_disk w0 (files w0, dirs w0) probe) in
  exists w' e,
    check_options host runtime_check options w = (w', Raise e)
    /\ files w' = files w0 /\ dirs w' = dirs w0
    /\ ((exists_in w0 path = true /\ log w' = log w0 /\ e = region_error)
        \/ (exists_in w0 path = false /\ returncode probed <> 0
            /\ log w' = log w0 ++ [probe]
            /\ exists message, e = RuntimeError message)
        \/ (exists_in w0 path = false /\ returncode probed = 0
            /\ returncode listed <> 0
            /\ log w' = log w0 ++ [probe; listing]
            /\ exists message, e = RuntimeError message)
        \/ (exists_in w0 path = false /\ returncode probed = 0
            /\ returncode listed = 0
            /\ log w' = log w0 ++ [probe; listing]
            /\ e = region_error)).
Proof.
  intros Hpath Hs3 Hregion Hrt probe listing probed listed.
  pose proof (startswith_s3_not_gs _ Hs3) as Hgs.
  destruct (startswith_nonempty _ _ _ Hs3) as (c & rest & ->).
  unfold check_options, bind at 1. rewrite Hrt.
  unfold check_release_dir, bind at 1.
  rewrite Hpath, Hs3, Hregion, Hgs. unfold bind at 1, os_path_exists.
  destruct (exists_in w0 (String c rest)) eqn:Hex.
  - eexists _, _. split; [reflexivity|]. repeat split. left. auto.
  - unfold check_s3_path, bind at 1. unfold bind at 1.
    cbn [run_quick shell act]. fold probe. fold probed.
    destruct (Z.eqb_spec (returncode probed) 0) as [Hprobe|Hprobe];
      cbn [negb raise ret].
    + unfold bind at 1. cbn [run_quick shell act].
      fold listing. fold listed.
      destruct (Z.eqb_spec (returncode listed) 0) as [Hls|Hls];
        cbn [negb raise ret andb].
      * eexists _, _. split; [reflexivity|]. cbn.
        rewrite <- app_assoc. repeat split. right. right. right. auto.
      * eexists _, _. split; [reflexivity|]. cbn.
        rewrite <- app_assoc. repeat split. right. right. left.
        repeat split; eauto.
    + eexists _, _. split; [reflexivity|]. cbn.
      repeat split. right. left. repeat split; eauto.
Qed.

Lemma check_options_s3_without_region_witness :
  exists w' e,
    check_options Sample.calm Sample.no_runtime_check
      Sample.s3_without_region Sample.empty_disk = (w', Raise e)
    /\ files w' = files Sample.empty_disk
    /\ (e = region_error -> log w' = [ EvRunQuick "aws --version";
                                       EvRunQuick "aws s3 ls s3://bucket/release" ]).
Proof.
  destruct (check_options_s3_without_region Sample.calm
              Sample.no_runtime_check Sample.s3_without_region
              "s3://bucket/release" Sample.empty_disk Sample.empty_disk)
    as (w' & e & Hrun & Hfiles & _ & Hcases); try reflexivity.
  exists w', e. split; [assumption|]. split; [assumption|].
  intros He.
  destruct Hcases as [(Hex & _)|[(_ & _ & _ & m & Hm)|[(_ & _ & _ & _ & m & Hm)
                     |(_ & _ & _ & Hlog & _)]]].
  - vm_compute in Hex. discriminate Hex.
  - rewrite Hm in He. discriminate He.
  - rewrite Hm in He. discriminate He.
  - exact Hlog.
Defined.

(** ** Facts about strings *)

Section StringFacts.

#[local] Arguments append !s1 s2 : simpl nomatch.

Implicit Types (s t p ins : string) (k n : nat).

Lemma take_drop n s : Str.take n s +:+ Str.drop n s = s.
Proof.
  revert s; induction n as [|n IH]; intros [|a s]; simpl; try reflexivity.
  now rewrite IH.
Qed.

Lemma length_take n s : (n <= String.length s)%nat -> String.length (Str.take n s) = n.
Proof.
  revert s; induction n as [|n IH]; intros [|a s]; simpl; intros H;
    try reflexivity; try lia.
  rewrite IH; lia.
Qed.

Lemma length_drop n s : String.length (Str.drop n s) = (String.length s - n)%nat.
Proof.
  revert s; induction n as [|n IH]; intros [|a s]; simpl; try reflexivity; try lia.
  apply IH.
Qed.

Lemma take_app_exact s t : Str.take (String.length s) (s +:+ t) = s.
Proof. induction s as [|a s IH]; simpl; [now destruct t|now rewrite IH]. Qed.

Lemma drop_app_exact s t : Str.drop (String.length s) (s +:+ t) = t.
Proof. induction s as [|a s IH]; simpl; [reflexivity|exact IH]. Qed.

Lemma drop_drop n k s : Str.drop n (Str.drop k s) = Str.drop (k + n) s.
Proof.
  revert s; induction k as [|k IH]; intros s; simpl; [reflexivity|].
  destruct s as [|a s]; [now destruct n|apply IH].
Qed.

Lemma take_take n k s : (n <= k)%nat -> Str.take n (Str.take k s) = Str.take n s.
Proof.
  revert k s; induction n as [|n IH]; intros [|k] [|a s] H; simpl;
    try reflexivity; try lia.
  rewrite IH; [reflexivity|lia].
Qed.

Lemma take_add n k s :
  Str.take n s +:+ Str.take k (Str.drop n s) = Str.take (n + k) s.
Proof.
  revert s; induction n as [|n IH]; intros s; simpl; [reflexivity|].
  destruct s as [|a s]; simpl; [now destruct k|now rewrite IH].
Qed.

Lemma startswith_app s p : Str.startswith s p = true -> s = p +:+ Str.drop (String.length p) s.
Proof.
  revert s; induction p as [|a p IH]; intros [|b s]; simpl; try reflexivity;
    try discriminate.
  destruct (Ascii.eqb_spec a b) as [->|]; [|discriminate].
  intros H. now rewrite <- (IH s H).
Qed.

Lemma startswith_nil s : Str.startswith s "" = true.
Proof. now destruct s. Qed.

Lemma startswith_self p t : Str.startswith (p +:+ t) p = true.
Proof.
  induction p as [|a p IH]; simpl; [now destruct t|].
  now rewrite Ascii.eqb_refl.
Qed.

Lemma splice_0 ins s : splice 0 ins s = ins +:+ s.
Proof. reflexivity. Qed.

Lemma splice_S k ins a s :
  splice (S k) ins (String a s) = String a (splice k ins s).
Proof. reflexivity. Qed.

Lemma append_assoc s t u : (s +:+ t) +:+ u = s +:+ (t +:+ u).
Proof. induction s as [|a s IH]; simpl; [reflexivity|now rewrite IH]. Qed.

Lemma append_nil_r s : s +:+ "" = s.
Proof. induction s as [|a s IH]; simpl; [reflexivity|now rewrite IH]. Qed.

Lemma length_append s t :
  String.length (s +:+ t) = (String.length s + String.length t)%nat.
Proof. induction s as [|a s IH]; simpl; [reflexivity|now rewrite IH]. Qed.

Lemma drop_app_ge n s t :
  Str.drop (String.length s + n) (s +:+ t) = Str.drop n t.
Proof. induction s as [|a s IH]; simpl; [reflexivity|exact IH]. Qed.

Lemma drop_splice_after n k ins s :
  (k <= n)%nat -> (k <= String.length s)%nat ->
  Str.drop (n + String.length ins) (splice k ins s) = Str.drop n s.
Proof.
  revert n s; induction k as [|k IH]; intros n s Hn Hk.
  - rewrite splice_0, Nat.add_comm. apply drop_app_ge.
  - destruct s as [|a s]; [simpl in Hk; lia|].
    destruct n as [|n]; [lia|]. rewrite splice_S. simpl.
    apply IH; simpl in Hk; lia.
Qed.

Lemma drop_splice_before n k ins s :
  (n <= k)%nat -> (k <= String.length s)%nat ->
  Str.drop n (splice k ins s) = splice (k - n) ins (Str.drop n s).
Proof.
  revert k s; induction n as [|n IH]; intros k s Hn Hk.
  - now rewrite Nat.sub_0_r.
  - destruct k as [|k]; [lia|].
    destruct s as [|a s]; [simpl in Hk; lia|].
    rewrite splice_S. simpl. apply IH; simpl in Hk; lia.
Qed.

Lemma take_splice_after n k ins s :
  (k <= n)%nat -> (k <= String.length s)%nat ->
  Str.take (n + String.length ins) (splice k ins s) = splice k ins (Str.take n s).
Proof.
  revert n s; induction k as [|k IH]; intros n s Hn Hk.
  - rewrite !splice_0. rewrite Nat.add_comm.
    induction ins as [|b ins IHi]; simpl; [reflexivity|now rewrite IHi].
  - destruct s as [|a s]; [simpl in Hk; lia|].
    destruct n as [|n]; [lia|]. rewrite splice_S. simpl.
    rewrite splice_S. f_equal. apply IH; simpl in Hk; lia.
Qed.

Lemma startswith_splice p k ins s :
  (String.length p <= k)%nat -> (k <= String.length s)%nat ->
  Str.startswith (splice k ins s) p = Str.startswith s p.
Proof.
  revert k s; induction p as [|a p IH]; intros k s Hp Hk.
  - now rewrite !startswith_nil.
  - simpl in Hp. destruct k as [|k]; [lia|].
    destruct s as [|b s]; [simpl in Hk; lia|].
    rewrite splice_S. simpl. destruct (Ascii.eqb a b); [|reflexivity].
    apply IH; simpl in Hk; lia.
Qed.

Lemma line_length_le s : (Re.line_length s <= String.length s)%nat.
Proof.
  induction s as [|a s IH]; simpl; [lia|].
  destruct (Re.is_newline a); lia.
Qed.

Lemma one_line_cons a s :
  one_line (String a s) -> Re.is_newline a = false /\ one_line s.
Proof.
  unfold one_line; simpl. destruct (Re.is_newline a); [discriminate|].
  intros H; split; [reflexivity|lia].
Qed.

Lemma line_length_app ins s :
  one_line ins ->
  Re.line_length (ins +:+ s) = (String.length ins + Re.line_length s)%nat.
Proof.
  induction ins as [|a ins IH]; intros H; simpl; [reflexivity|].
  apply one_line_cons in H as [-> H]. now rewrite IH.
Qed.

Lemma line_length_splice k ins r :
  (k <= Re.line_length r)%nat -> one_line ins ->
  Re.line_length (splice k ins r) = (Re.line_length r + String.length ins)%nat.
Proof.
  revert r; induction k as [|k IH]; intros r Hk Hins.
  - rewrite splice_0, line_length_app by assumption. lia.
  - destruct r as [|a r]; [simpl in Hk; lia|].
    rewrite splice_S. simpl in *.
    destruct (Re.is_newline a); [lia|].
    rewrite IH; [reflexivity|lia|assumption].
Qed.

Lemma greedy_line_some rest n :
  Re.greedy_line rest = Some n ->
  n = Re.line_length rest /\ (1 <= n)%nat /\ (n < String.length rest)%nat.
Proof.
  unfold Re.greedy_line. cbv zeta.
  destruct (Nat.eqb_spec (Re.line_length rest) 0) as [|Hm]; [discriminate|].
  destruct (Str.drop (Re.line_length rest) rest) as [|b t] eqn:Hd;
    [discriminate|].
  intros [= <-]. repeat split; [lia|].
  pose proof (length_drop (Re.line_length rest) rest) as Hl.
  rewrite Hd in Hl. simpl in Hl. lia.
Qed.

Lemma greedy_line_splice_some rest k ins n :
  Re.greedy_line rest = Some n -> (k <= n)%nat -> one_line ins ->
  Re.greedy_line (splice k ins rest) = Some (n + String.length ins)%nat.
Proof.
  intros Hg Hk Hins. pose proof (greedy_line_some _ _ Hg) as (-> & H1 & Hlt).
  revert Hg. unfold Re.greedy_line. cbv zeta.
  rewrite line_length_splice by assumption.
  rewrite drop_splice_after by lia.
  destruct (Nat.eqb_spec (Re.line_length rest) 0); [discriminate|].
  destruct (Nat.eqb_spec (Re.line_length rest + String.length ins) 0);
    [lia|].
  destruct (Str.drop (Re.line_length rest) rest); [discriminate|].
  reflexivity.
Qed.

Lemma greedy_line_splice_none rest k ins :
  Re.greedy_line rest = None ->
  (1 <= k)%nat -> (k <= String.length rest)%nat -> one_line ins ->
  Re.greedy_line (splice k ins rest) = None.
Proof.
  intros Hg H1 Hk Hins. unfold Re.greedy_line in *. cbv zeta in *.
  destruct (Nat.eqb_spec (Re.line_length rest) 0) as [Hm|Hm].
  - destruct rest as [|a rest]; [simpl in Hk; lia|].
    destruct k as [|k]; [lia|]. rewrite splice_S. simpl in *.
    destruct (Re.is_newline a); [reflexivity|discriminate].
  - destruct (Str.drop (Re.line_length rest) rest) as [|b t] eqn:Hd;
      [|discriminate].
    pose proof (length_drop (Re.line_length rest) rest) as Hl.
    rewrite Hd in Hl. simpl in Hl.
    pose proof (line_length_le rest).
    rewrite line_length_splice by (assumption || lia).
    rewrite drop_splice_after, Hd by lia.
    now destruct (Nat.eqb _ _).
Qed.

Lemma jvm_literal_length_eq : jvm_literal_length = 18%nat.
Proof. reflexivity. Qed.

Lemma match_here_splice_some s k ins n :
  Re.match_here Re.DefaultJvmOpts s = Some n ->
  (jvm_literal_length <= k)%nat -> (k <= jvm_literal_length + n)%nat ->
  one_line ins ->
  Re.match_here Re.DefaultJvmOpts (splice k ins s)
  = Some (n + String.length ins)%nat.
Proof.
  unfold Re.match_here, jvm_literal_length.
  set (lit := Re.literal Re.DefaultJvmOpts).
  destruct (Str.startswith s lit) eqn:Hs; [|discriminate].
  intros Hg Hlo Hhi Hins.
  pose proof (greedy_line_some _ _ Hg) as (_ & _ & Hlt).
  rewrite length_drop in Hlt.
  rewrite startswith_splice, Hs by lia.
  rewrite drop_splice_before by lia.
  apply greedy_line_splice_some; [assumption|lia|assumption].
Qed.

Lemma match_here_splice_none s k ins :
  Re.match_here Re.DefaultJvmOpts s = None ->
  (S jvm_literal_length <= k)%nat -> (k <= String.length s)%nat ->
  one_line ins ->
  Re.match_here Re.DefaultJvmOpts (splice k ins s) = None.
Proof.
  unfold Re.match_here, jvm_literal_length.
  set (lit := Re.literal Re.DefaultJvmOpts).
  intros Hm Hlo Hhi Hins.
  rewrite startswith_splice by lia.
  destruct (Str.startswith s lit) eqn:Hs; [|reflexivity].
  rewrite drop_splice_before by lia.
  apply greedy_line_splice_none; [assumption|lia| |assumption].
  rewrite length_drop. lia.
Qed.

Lemma search_from_eq (pat : Re.Pattern) whole pos s :
  Re.search_from pat whole pos s =
  match Re.match_here pat s with
  | Some n =>
      let g := (pos + String.length (Re.literal pat))%nat in
      Some {| Re.subject := whole; Re.start0 := pos; Re.end0 := S (g + n);
              Re.start1 := g; Re.end1 := (g + n)%nat |}
  | None =>
      match s with
      | EmptyString => None
      | String _ s' => Re.search_from pat whole (S pos) s'
      end
  end.
Proof. destruct s; reflexivity. Qed.

(** Where a match of the options line can be. *)
Lemma search_from_span whole pos s m :
  Re.search_from Re.DefaultJvmOpts whole pos s = Some m ->
  Re.subject m = whole
  /\ (pos <= Re.start0 m)%nat
  /\ Re.start1 m = (Re.start0 m + jvm_literal_length)%nat
  /\ (Re.start1 m < Re.end1 m)%nat
  /\ (Re.end1 m < pos + String.length s)%nat
  /\ Re.end0 m = S (Re.end1 m).
Proof.
  revert pos; induction s as [|a s IH]; intros pos; rewrite search_from_eq.
  - discriminate.
  - destruct (Re.match_here Re.DefaultJvmOpts (String a s)) as [n|] eqn:Hm.
    + intros [= <-]. cbn [Re.subject Re.start0 Re.start1 Re.end0 Re.end1].
      unfold Re.match_here in Hm.
      destruct (Str.startswith _ _); [|discriminate].
      apply greedy_line_some in Hm as (_ & H1 & Hlt).
      rewrite length_drop in Hlt. pose proof jvm_literal_length_eq.
      change (String.length (Re.literal Re.DefaultJvmOpts)) with 18%nat in *.
      repeat split; lia.
    + intros H. apply IH in H as (? & ? & ? & ? & ? & ?).
      cbn [String.length]. repeat split; (assumption || lia).
Qed.

(** Inserting one-line text inside the value of the first options line
    leaves the match where it was and makes the group longer. *)
Lemma search_from_splice whole whole' pos s m k ins :
  Re.search_from Re.DefaultJvmOpts whole pos s = Some m ->
  (Re.start1 m <= pos + k)%nat -> (pos + k <= Re.end1 m)%nat ->
  one_line ins ->
  Re.search_from Re.DefaultJvmOpts whole' pos (splice k ins s)
  = Some {| Re.subject := whole';
            Re.start0 := Re.start0 m;
            Re.end0 := (Re.end0 m + String.length ins)%nat;
            Re.start1 := Re.start1 m;
            Re.end1 := (Re.end1 m + String.length ins)%nat |}.
Proof.
  revert pos k; induction s as [|a s IH]; intros pos k Hm Hlo Hhi Hins.
  - rewrite search_from_eq in Hm. discriminate.
  - pose proof (search_from_span _ _ _ _ Hm) as Hspan.
    rewrite search_from_eq in Hm. rewrite search_from_eq.
    destruct (Re.match_here Re.DefaultJvmOpts (String a s)) as [n|] eqn:Hh.
    + injection Hm as <-.
      cbn [Re.subject Re.start0 Re.start1 Re.end0 Re.end1] in *.
      pose proof jvm_literal_length_eq.
      change (String.length (Re.literal Re.DefaultJvmOpts)) with 18%nat in *.
      rewrite (match_here_splice_some _ k ins n Hh) by (assumption || lia).
      cbv zeta. do 2 f_equal; lia.
    + destruct Hspan as (_ & _ & _ & _ & Hend & _).
      cbn [String.length] in Hend.
      pose proof (search_from_span _ _ _ _ Hm) as (_ & Hs0 & Hs1 & _).
      pose proof jvm_literal_length_eq.
      destruct k as [|k]; [lia|].
      rewrite match_here_splice_none; try assumption;
        [|lia|cbn [String.length]; lia].
      rewrite splice_S. apply IH; [assumption|lia|lia|assumption].
Qed.

Lemma bound_nat s n :
  (n <= String.length s)%nat -> Str.bound s (Z.of_nat n) = n.
Proof.
  intros H. unfold Str.bound, Str.len.
  destruct (Z.ltb_spec (Z.of_nat n) 0); lia.
Qed.

Lemma slice_to s n :
  (n <= String.length s)%nat -> Str.slice s 0 (Z.of_nat n) = Str.take n s.
Proof.
  intros H. unfold Str.slice.
  change 0 with (Z.of_nat 0).
  rewrite (bound_nat s n H), (bound_nat s 0 (Nat.le_0_l _)).
  now rewrite Nat.sub_0_r.
Qed.

Lemma slice_from_at s n :
  (n <= String.length s)%nat -> Str.slice_from s (Z.of_nat n) = Str.drop n s.
Proof. intros H. unfold Str.slice_from. now rewrite bound_nat. Qed.

Lemma find_from_eq pos s sub :
  Str.find_from pos s sub =
  if Str.startswith s sub then pos
  else match s with
       | EmptyString => -1
       | String _ s' => Str.find_from (pos + 1) s' sub
       end.
Proof. destruct s; reflexivity. Qed.

Lemma find_from_found pos pre sub post :
  pos <= Str.find_from pos (pre +:+ sub +:+ post) sub.
Proof.
  revert pos; induction pre as [|a pre IH]; intros pos; rewrite find_from_eq.
  - change ("" +:+ sub +:+ post) with (sub +:+ post).
    rewrite startswith_self. lia.
  - destruct (Str.startswith _ _); [lia|]. simpl.
    specialize (IH (pos + 1)). lia.
Qed.

Lemma find_found pre sub post : 0 <= Str.find (pre +:+ sub +:+ post) sub.
Proof. apply find_from_found. Qed.

(** ** The rewritten launch script *)

Lemma inserted_one_line first : one_line (inserted first).
Proof.
  unfold inserted, other_quote.
  destruct (Ascii.eqb first "039"%char); reflexivity.
Qed.

Lemma group1_eq content m :
  Re.search Re.DefaultJvmOpts content = Some m ->
  Re.group1 m
  = Str.take (Re.end1 m - Re.start1 m) (Str.drop (Re.start1 m) content).
Proof.
  intros H. apply search_from_span in H as (Hs & _). unfold Re.group1.
  now rewrite Hs.
Qed.

Lemma group1_length content m :
  Re.search Re.DefaultJvmOpts content = Some m ->
  String.length (Re.group1 m) = (Re.end1 m - Re.start1 m)%nat.
Proof.
  intros H. rewrite (group1_eq _ _ H).
  apply search_from_span in H as (_ & _ & _ & ? & ? & _).
  apply length_take. rewrite length_drop. lia.
Qed.

Lemma group1_nonempty content m :
  Re.search Re.DefaultJvmOpts content = Some m ->
  exists first rest, Re.group1 m = String first rest.
Proof.
  intros H. pose proof (group1_length _ _ H) as Hl.
  apply search_from_span in H as (_ & _ & _ & ? & _).
  destruct (Re.group1 m); [simpl in Hl; lia|eauto].
Qed.

(** The text the script writes is the old text with [inserted] put right
    after the opening quote of the value (or at its start when the value
    is not quoted). *)
Lemma new_content_splice content m first rest :
  Re.search Re.DefaultJvmOpts content = Some m ->
  Re.group1 m = String first rest ->
  Str.concat (new_content content m first)
  = splice (Re.start1 m + skipped first) (inserted first) content.
Proof.
  intros Hm Hv. pose proof (group1_length _ _ Hm) as Hlen.
  pose proof (group1_eq _ _ Hm) as Hg.
  pose proof (search_from_span _ _ _ _ Hm) as (_ & _ & _ & Hlt & Hend & _).
  cbn [Nat.add] in Hend. rewrite Hv in Hlen. cbn [String.length] in Hlen.
  unfold new_content, Str.concat, splice, inserted, skipped, other_quote.
  cbn [fold_right]. rewrite append_nil_r.
  rewrite slice_to by lia.
  assert (Hoff : forall b : bool,
    Str.slice (Re.group1 m) 0 (if b then 1 else 0)
    = Str.take (if b then 1 else 0)%nat (Str.drop (Re.start1 m) content)
    /\ Str.slice_from content (Z.of_nat (Re.start1 m) + (if b then 1 else 0))
      = Str.drop (Re.start1 m + (if b then 1 else 0)) content).
  { intros b. split.
    - replace (if b then 1 else 0) with (Z.of_nat (if b then 1 else 0)%nat)
        by now destruct b.
      rewrite slice_to by (rewrite Hv; destruct b; simpl; lia).
      rewrite Hg. apply take_take. destruct b; lia.
    - replace (Z.of_nat (Re.start1 m) + (if b then 1 else 0))
        with (Z.of_nat (Re.start1 m + (if b then 1 else 0))%nat)
        by (destruct b; lia).
      apply slice_from_at. destruct b; lia. }
  destruct (Hoff (Ascii.eqb first "039"%char || Ascii.eqb first "034"%char))
    as [-> ->].
  rewrite <- take_add, !append_assoc. reflexivity.
Qed.

Lemma skipped_le first : (skipped first <= 1)%nat.
Proof. unfold skipped. destruct (_ || _); lia. Qed.

(** Searching the rewritten text finds the same line, now with the
    directive in its value. *)
Lemma search_new_content content m first rest :
  Re.search Re.DefaultJvmOpts content = Some m ->
  Re.group1 m = String first rest ->
  let content1 := Str.concat (new_content content m first) in
  let m1 := patched_match content1 m first in
  Re.search Re.DefaultJvmOpts content1 = Some m1
  /\ Re.group1 m1 = splice (skipped first) (inserted first) (Re.group1 m).
Proof.
  intros Hm Hv content1 m1.
  pose proof (search_from_span _ _ _ _ Hm) as (_ & _ & _ & Hlt & Hend & _).
  cbn [Nat.add] in Hend. pose proof (skipped_le first) as Hsk.
  assert (Hc : content1
               = splice (Re.start1 m + skipped first) (inserted first) content)
    by (apply new_content_splice with rest; assumption).
  split.
  - unfold Re.search. rewrite Hc at 2.
    apply search_from_splice with (whole := content);
      [assumption|lia|lia|apply inserted_one_line].
  - unfold Re.group1, m1, patched_match.
    cbn [Re.subject Re.start1 Re.end1]. rewrite Hc.
    rewrite drop_splice_before by lia.
    replace (Re.start1 m + skipped first - Re.start1 m)%nat
      with (skipped first) by lia.
    replace (Re.end1 m + String.length (inserted first) - Re.start1 m)%nat
      with (Re.end1 m - Re.start1 m + String.length (inserted first))%nat
      by lia.
    rewrite take_splice_after; [|lia|rewrite length_drop; lia].
    apply search_from_span in Hm as (-> & _). reflexivity.
Qed.

Lemma find_in_patched_value first value :
  0 <= Str.find (splice (skipped first) (inserted first) value) key.
Proof.
  unfold splice, inserted, directive.
  rewrite !append_assoc, <- (append_assoc (Str.take _ _)).
  apply find_found.
Qed.

End StringFacts.

Section PatchFacts.

Variable host : Host.

Lemma check_run_quick_returns command a w w' r :
  check_run_quick host command a w = (w', Return r) ->
  returncode (host_run host command w) = 0
  /\ w' = with_disk w (act host a command 0 w) (EvRunQuick command).
Proof.
  unfold check_run_quick, bind. cbn [run_quick shell].
  destruct (Z.eqb_spec (returncode (host_run host command w)) 0) as [E|E];
    cbn [ret raise]; [|discriminate].
  rewrite E. intros [= <- _]. auto.
Qed.

Lemma inject_patches options subsystem content m w w1 :
  String.eqb subsystem "deck" = false ->
  files w !! launch_script subsystem = Some content ->
  Re.search Re.DefaultJvmOpts content = Some m ->
  Str.find (Re.group1 m) key < 0 ->
  inject_spring_config_location host options subsystem w = (w1, Return tt) ->
  exists first rest,
    Re.group1 m = String first rest
    /\ files w1 !! launch_script subsystem
       = Some (Str.concat (new_content content m first)).
Proof.
  intros Hdeck Hfile Hm Hfind.
  destruct (group1_nonempty _ _ Hm) as (first & rest & Hv).
  unfold inject_spring_config_location. rewrite Hdeck.
  fold (launch_script subsystem). set (path := launch_script subsystem) in *.
  unfold bind at 1, read_file. rewrite Hfile, Hm.
  fold key. destruct (Z.leb_spec 0 (Str.find (Re.group1 m) key)); [lia|].
  rewrite Hv. unfold first_char. unfold bind at 1, ret at 1.
  unfold bind at 1. unfold write_temp at 1.
  set (content1 := Str.concat (new_content content m first)).
  set (temp := fresh_string_of_set _ _).
  set (wt := {| files := <[temp:=content1]> (files w); dirs := dirs w;
                spawned := spawned w; log := log w |}).
  unfold bind at 1.
  destruct (check_run_quick host _ Observe wt) as [w2 [r2|e2]] eqn:H2;
    [|discriminate].
  apply check_run_quick_returns in H2 as [_ ->].
  unfold bind at 1.
  destruct (check_run_quick host _ (Move temp path) _) as [w3 [r3|e3]] eqn:H3;
    [|discriminate].
  apply check_run_quick_returns in H3 as [_ ->].
  intros [= <-]. exists first, rest. split; [reflexivity|].
  cbn. rewrite lookup_insert_eq. cbn. apply lookup_insert_eq.
Qed.

Lemma inject_leaves options subsystem content m w :
  String.eqb subsystem "deck" = false ->
  files w !! launch_script subsystem = Some content ->
  Re.search Re.DefaultJvmOpts content = Some m ->
  0 <= Str.find (Re.group1 m) key ->
  inject_spring_config_location host options subsystem w
  = ({| files := files w; dirs := dirs w; spawned := spawned w;
        log := log w ++ [EvStderr (warning m)] |}, Return tt).
Proof.
  intros Hdeck Hfile Hm Hfind.
  unfold inject_spring_config_location. rewrite Hdeck.
  fold (launch_script subsystem).
  unfold bind at 1, read_file. rewrite Hfile, Hm. fold key.
  destruct (Z.leb_spec 0 (Str.find (Re.group1 m) key)); [|lia].
  reflexivity.
Qed.

(** C3: on a launch script that has the options line and no directive in
    it, a second run of the patch after a first one that went through
    finds the directive in the options, writes the warning that shows the
    line, and returns with every file as the first run left it. *)
Theorem patch_twice_is_patch_once
  options subsystem content m w w1 :
  subsystem <> "deck" ->
  files w !! launch_script subsystem = Some content ->
  Re.search Re.DefaultJvmOpts content = Some m ->
  Str.find (Re.group1 m) key < 0 ->
  inject_spring_config_location host options subsystem w = (w1, Return tt) ->
  exists w2 content1 m1,
    inject_spring_config_location host options subsystem w1 = (w2, Return tt)
    /\ files w2 = files w1
    /\ dirs w2 = dirs w1
    /\ files w1 !! launch_script subsystem = Some content1
    /\ Re.search Re.DefaultJvmOpts content1 = Some m1
    /\ 0 <= Str.find (Re.group1 m1) key
    /\ log w2 = log w1 ++ [EvStderr (warning m1)].
Proof.
  intros Hdeck Hfile Hm Hfind Hrun.
  apply String.eqb_neq in Hdeck.
  destruct (inject_patches _ _ _ _ _ _ Hdeck Hfile Hm Hfind Hrun)
    as (first & rest & Hv & Hfile1).
  destruct (search_new_content _ _ _ _ Hm Hv) as [Hm1 Hg1].
  cbv zeta in Hm1, Hg1.
  set (content1 := Str.concat (new_content content m first)) in *.
  set (m1 := patched_match content1 m first) in *.
  assert (Hfound : 0 <= Str.find (Re.group1 m1) key)
    by (rewrite Hg1; apply find_in_patched_value).
  eexists _, content1, m1. split.
  - apply (inject_leaves _ _ content1 m1); assumption.
  - cbn [files dirs log]. repeat split; (reflexivity || assumption).
Qed.

(** C4: when the value of the options line opens with a single or a
    double quote, the value written back opens with the same quote,
    followed by the directive (wrapped in the other kind of quote), one
    space, and then the old value from its second character on, unchanged;
    the text before the value and the text after it are unchanged too. *)
Theorem patch_keeps_the_quote_and_the_options
  options subsystem content m w w1 quote rest :
  subsystem <> "deck" ->
  files w !! launch_script subsystem = Some content ->
  Re.search Re.DefaultJvmOpts content = Some m ->
  Re.group1 m = String quote rest ->
  quote = "039"%char \/ quote = "034"%char ->
  Str.find (Re.group1 m) key < 0 ->
  inject_spring_config_location host options subsystem w = (w1, Return tt) ->
  exists content1 m1,
    files w1 !! launch_script subsystem = Some content1
    /\ Re.search Re.DefaultJvmOpts content1 = Some m1
    /\ Re.group1 m1
       = String quote (directive (other_quote quote) +:+ " " +:+ rest)
    /\ Re.start1 m1 = Re.start1 m
    /\ Str.take (Re.start1 m) content1 = Str.take (Re.start1 m) content
    /\ Str.drop (Re.end1 m1) content1 = Str.drop (Re.end1 m) content.
Proof.
  intros Hdeck Hfile Hm Hv Hq Hfind Hrun.
  apply String.eqb_neq in Hdeck.
  destruct (inject_patches _ _ _ _ _ _ Hdeck Hfile Hm Hfind Hrun)
    as (first & rest' & Hv' & Hfile1).
  rewrite Hv in Hv'. injection Hv' as <- <-.
  destruct (search_new_content _ _ _ _ Hm Hv) as [Hm1 Hg1].
  cbv zeta in Hm1, Hg1.
  pose proof (new_content_splice _ _ _ _ Hm Hv) as Hc.
  pose proof (search_from_span _ _ _ _ Hm) as (_ & _ & _ & Hlt & Hend & _).
  cbn [Nat.add] in Hend.
  set (content1 := Str.concat (new_content content m quote)) in *.
  assert (Hsk : skipped quote = 1%nat) by (destruct Hq as [-> | ->]; reflexivity).
  exists content1, (patched_match content1 m quote).
  split; [assumption|]. split; [assumption|]. split.
  - rewrite Hg1, Hv, Hsk. unfold inserted, splice.
    cbn [Str.take Str.drop]. now rewrite append_assoc.
  - split; [reflexivity|]. rewrite Hc, Hsk. cbn [patched_match Re.end1]. split.
    + unfold splice. rewrite <- (take_add (Re.start1 m) 1), !append_assoc.
      rewrite <- (length_take (Re.start1 m) content) at 1 by lia.
      apply take_app_exact.
    + apply drop_splice_after; lia.
Qed.

End PatchFacts.

Lemma patch_twice_is_patch_once_witness :
  exists w2 content1 m1,
    inject_spring_config_location Sample.calm Sample.defaults "gate"
      patched_once = (w2, Return tt)
    /\ files w2 = files patched_once
    /\ dirs w2 = dirs patched_once
    /\ files patched_once !! launch_script "gate" = Some content1
    /\ Re.search Re.DefaultJvmOpts content1 = Some m1
    /\ 0 <= Str.find (Re.group1 m1) key
    /\ log w2 = log patched_once ++ [EvStderr (warning m1)].
Proof.
  eapply (patch_twice_is_patch_once Sample.calm Sample.defaults "gate"
            Sample.gate_script _ Sample.installed).
  - discriminate.
  - vm_compute. reflexivity.
  - vm_compute. reflexivity.
  - vm_compute. reflexivity.
  - vm_compute. reflexivity.
Defined.

Lemma patch_keeps_the_quote_and_the_options_witness :
  exists content1 m1,
    files patched_once !! launch_script "gate" = Some content1
    /\ Re.search Re.DefaultJvmOpts content1 = Some m1
    /\ Re.group1 m1
       = String "039"%char
           (directive Str.dquote +:+ " " +:+ Str.dquote
            +:+ "-Djava.security.egd=file:/dev/urandom" +:+ Str.dquote
            +:+ "'").
Proof.
  destruct (patch_keeps_the_quote_and_the_options Sample.calm Sample.defaults
              "gate" Sample.gate_script
              {| Re.subject := Sample.gate_script; Re.start0 := 19;
                 Re.end0 := 79; Re.start1 := 37; Re.end1 := 78 |}
              Sample.installed patched_once "039"%char
              (Str.dquote +:+ "-Djava.security.egd=file:/dev/urandom"
               +:+ Str.dquote +:+ "'"))
    as (content1 & m1 & H1 & H2 & H3 & _).
  - discriminate.
  - vm_compute. reflexivity.
  - vm_compute. reflexivity.
  - vm_compute. reflexivity.
  - left. reflexivity.
  - vm_compute. reflexivity.
  - vm_compute. reflexivity.
  - exists content1, m1. repeat split; assumption.
Defined.

(** ** The manifest *)

(** C8, on every release configuration without the package list: the
    script does not test the result of the search, so what is raised is
    the attribute error of calling [group] on [None], not an error about
    the configuration. *)
Theorem missing_package_list_raises_attribute_error dir content w :
  files w !! Str.path_join dir ["release_config.cfg"] = Some content ->
  Re.search Re.PackageList content = None ->
  read_package_list dir w = (w, Raise no_group).
Proof.
  intros Hfile Hnone. unfold read_package_list, bind, read_file.
  now rewrite Hfile, Hnone.
Qed.

Lemma missing_package_list_raises_attribute_error_witness :
  read_package_list "/opt/spinnaker" unconfigured
  = (unconfigured, Raise no_group)
  /\ snd (_install_spinnaker_packages_helper Sample.calm Sample.defaults
            (Some "/mnt/release") unconfigured)
     = Raise no_group.
Proof.
  split.
  - apply (missing_package_list_raises_attribute_error "/opt/spinnaker"
             config_without_list unconfigured); reflexivity.
  - vm_compute. reflexivity.
Defined.

(** ** The name of the installed component *)

(** C10, evaluated: with an underscore in the file name the component is
    the text before the first underscore; without one, [find] returns -1
    and the slice drops the last character of the file name, so the patch
    is asked for a component that does not exist. *)
Theorem component_of_name_without_underscore :
  subsystem_of "clouddriver_1.0_all.deb" = "clouddriver"
  /\ subsystem_of "deck.deb" = "deck.de"
  /\ snd (install_package Sample.calm Sample.defaults "/opt/spinnaker/install"
            "deck.deb" Sample.installed)
     = Raise (IOError "/opt/deck.de/bin/deck.de").
Proof. repeat split; vm_compute; reflexivity. Qed.

(** ** The directories of the directive *)

Lemma inject_ignores_options host options options' subsystem :
  inject_spring_config_location host options subsystem
  = inject_spring_config_location host options' subsystem.
Proof. reflexivity. Qed.

(** C7, evaluated with the installation root set to /srv/spinnaker: the
    system configuration directory is /srv/spinnaker/config, but the
    directive written into the launch script still names
    /opt/spinnaker/config, because the patch spells the directory out
    instead of asking [get_config_install_dir]. *)
Theorem directive_names_the_default_root :
  let w := Sample.installed_elsewhere in
  let w1 := fst (inject_spring_config_location Sample.calm Sample.relocated
                   "gate" w) in
  snd (get_config_install_dir Sample.calm Sample.relocated w)
  = Return "/srv/spinnaker/config"
  /\ option_map Re.group1
       (match files w1 !! "/opt/gate/bin/gate" with
        | Some text => Re.search Re.DefaultJvmOpts text
        | None => None
        end)
     = Some (Str.concat
               [ "'"; Str.dquote;
                 "-Dspring.config.location=/opt/spinnaker/config/,/root/.spinnaker/";
                 Str.dquote; " "; Str.dquote;
                 "-Djava.security.egd=file:/dev/urandom"; Str.dquote; "'" ]).
Proof. split; vm_compute; reflexivity. Qed.

(** ** The user's spinnaker-local.yml *)

Section LocalYml.

Variable host : Host.
Variable options : Options.

Lemma get_spinnaker_dir_present w :
  exists_in w (root_of options) = true ->
  get_spinnaker_dir host options w = (w, Return (root_of options)).
Proof.
  intros H. unfold get_spinnaker_dir. fold (root_of options).
  unfold bind at 1, os_path_exists. now rewrite H.
Qed.

Lemma exists_in_same_disk w w' path :
  files w' = files w -> dirs w' = dirs w ->
  exists_in w' path = exists_in w path.
Proof. unfold exists_in. now intros -> ->. Qed.

(** A call that returns leaves the installation root in place. *)
Lemma get_spinnaker_dir_creates w w' r :
  get_spinnaker_dir host options w = (w', Return r) ->
  r = root_of options /\ exists_in w' (root_of options) = true.
Proof.
  unfold get_spinnaker_dir. fold (root_of options).
  unfold bind at 1, os_path_exists.
  destruct (exists_in w (root_of options)) eqn:Hex; cbn [negb].
  - unfold bind, ret. intros [= <- <-]. auto.
  - unfold bind at 1. unfold bind at 1, print, emit.
    unfold safe_mkdir, bind at 1. cbn [run_quick shell].
    match goal with
    | |- context [returncode (host_run host ?c ?w0) =? 0] =>
        destruct (Z.eqb_spec (returncode (host_run host c w0)) 0) as [E|E]
    end; cbn [negb raise ret]; [|discriminate].
    intros [= <- <-]. split; [reflexivity|].
    rewrite E. unfold exists_in. cbn.
    rewrite (bool_decide_eq_true_2 (root_of options ∈ _)) by set_solver.
    apply orb_true_r.
Qed.

Lemma check_run_quick_observe command w w' r :
  check_run_quick host command Observe w = (w', Return r) ->
  files w' = files w /\ dirs w' = dirs w.
Proof.
  intros H. apply check_run_quick_returns in H as [_ ->]. auto.
Qed.

Lemma install_release_leaves_root w w' :
  install_release host options w = (w', Return tt) ->
  exists_in w' (root_of options) = true.
Proof.
  unfold install_release. unfold bind at 1.
  destruct (_install_spinnaker_packages_helper _ _ _ _) as [w1 [[]|e]];
    [|discriminate].
  unfold bind at 1.
  destruct (get_spinnaker_dir host options w1) as [w2 [r|e]] eqn:Hroot;
    [|discriminate].
  apply get_spinnaker_dir_creates in Hroot as [-> Hroot].
  unfold bind at 1, print, emit.
  unfold bind at 1.
  destruct (check_run_quick _ _ _ _) as [w3 [r3|e]] eqn:H3; [|discriminate].
  apply check_run_quick_observe in H3 as [Hf3 Hd3]. cbn in Hf3, Hd3.
  unfold bind at 1.
  destruct (check_run_quick _ _ _ _) as [w4 [r4|e]] eqn:H4; [|discriminate].
  apply check_run_quick_observe in H4 as [Hf4 Hd4].
  intros [= <-]. rewrite <- Hroot.
  apply exists_in_same_disk; congruence.
Qed.

(** With the root and the user's file in place the step changes nothing,
    not even the log. *)
Lemma provide_local_yml_present w :
  exists_in w (root_of options) = true ->
  exists_in w local_yml = true ->
  provide_local_yml host options w = (w, Return tt).
Proof.
  intros Hroot Hyml. unfold provide_local_yml, get_config_install_dir.
  unfold bind at 1. unfold bind at 1.
  rewrite (get_spinnaker_dir_present w Hroot). unfold ret at 1.
  unfold bind at 1, os_path_exists.
  change (Str.path_join (get_user_config_dir options) ["spinnaker-local.yml"])
    with local_yml.
  now rewrite Hyml.
Qed.


End LocalYml.


(** ** Installing the packages *)

Create HintDb quiet.

Section PackageManager.

Variable host : Host.

Lemma quiet_ret {A} (a : A) : quiet (ret a).
Proof. intros w w' r [= <- _]. reflexivity. Qed.

Lemma quiet_raise {A} e : quiet (@raise A e).
Proof. intros w w' r [= <- _]. reflexivity. Qed.

Lemma quiet_bind {A B} (c : Py A) (k : A -> Py B) :
  quiet c -> (forall a, quiet (k a)) -> quiet (bind c k).
Proof.
  intros Hc Hk w w' r. unfold bind.
  destruct (c w) as [w1 [a|e]] eqn:E.
  - intros H. rewrite (Hk _ _ _ _ H). eapply Hc, E.
  - intros [= <- _]. eapply Hc, E.
Qed.

Lemma log_with_disk w d e :
  package_manager_log (with_disk w d e)
  = package_manager_log w ++ (if is_package_manager e then [e] else []).
Proof.
  unfold package_manager_log, with_disk. cbn [log].
  rewrite List.filter_app. cbn. now destruct (is_package_manager e).
Qed.

Lemma emit_eq e w : emit e w = (with_disk w (files w, dirs w) e, Return tt).
Proof. reflexivity. Qed.

Lemma quiet_emit e : is_package_manager e = false -> quiet (emit e).
Proof.
  intros He w w' r [= <- _]. unfold package_manager_log. cbn [log].
  rewrite List.filter_app. cbn. rewrite He. apply app_nil_r.
Qed.

Lemma quiet_print text : quiet (print text).
Proof. now apply quiet_emit. Qed.

Lemma quiet_stderr_write text : quiet (stderr_write text).
Proof. now apply quiet_emit. Qed.

Lemma quiet_os_path_exists path : quiet (os_path_exists path).
Proof. intros w w' r [= <- _]. reflexivity. Qed.

Lemma quiet_read_file path : quiet (read_file path).
Proof.
  intros w w' r. unfold read_file.
  destruct (files w !! path); intros [= <- _]; reflexivity.
Qed.

Lemma quiet_write_temp content : quiet (write_temp content).
Proof. intros w w' r [= <- _]. reflexivity. Qed.

Lemma quiet_run_quick command a : quiet (run_quick host command a).
Proof.
  intros w w' r [= <- _]. rewrite log_with_disk. apply app_nil_r.
Qed.

Lemma quiet_popen command : quiet (popen command).
Proof.
  intros w w' r [= <- _]. unfold package_manager_log. cbn [log].
  rewrite List.filter_app. apply app_nil_r.
Qed.

Lemma quiet_communicate j : quiet (communicate host j).
Proof.
  intros w w' r. unfold communicate. destruct (host_wait host j w).
  intros [= <- _]. rewrite log_with_disk. apply app_nil_r.
Qed.

Lemma quiet_if {A} (b : bool) (c1 c2 : Py A) :
  quiet c1 -> quiet c2 -> quiet (if b then c1 else c2).
Proof. now destruct b. Qed.

Lemma quiet_for_each {A} (l : list A) body :
  (forall x, quiet (body x)) -> quiet (for_each l body).
Proof.
  intros H. induction l as [|x l IH]; cbn [for_each].
  - apply quiet_ret.
  - apply quiet_bind; auto.
Qed.

Lemma quiet_collect {A B} (l : list A) (f : A -> Py B) :
  (forall x, quiet (f x)) -> quiet (collect l f).
Proof.
  intros H. induction l as [|x l IH]; cbn [collect].
  - apply quiet_ret.
  - apply quiet_bind; [auto|]. intros y.
    apply quiet_bind; [auto|]. intros ys. apply quiet_ret.
Qed.

#[local] Hint Resolve quiet_ret quiet_raise quiet_print quiet_stderr_write
  quiet_os_path_exists quiet_read_file quiet_write_temp quiet_run_quick
  quiet_popen quiet_communicate quiet_if quiet_for_each quiet_collect
  : quiet.

Ltac quiet :=
  repeat first
    [ apply quiet_bind; [|intros ?]
    | apply quiet_if
    | apply quiet_for_each; intros ?
    | apply quiet_collect; intros ?
    | solve [auto with quiet] ].

Lemma quiet_check_run_quick command a :
  quiet (check_run_quick host command a).
Proof. unfold check_run_quick. quiet. Qed.

Lemma quiet_safe_mkdir dir : quiet (safe_mkdir host dir).
Proof. unfold safe_mkdir. quiet. Qed.

#[local] Hint Resolve quiet_check_run_quick quiet_safe_mkdir : quiet.

Lemma quiet_get_spinnaker_dir options : quiet (get_spinnaker_dir host options).
Proof. unfold get_spinnaker_dir. quiet. Qed.

#[local] Hint Resolve quiet_get_spinnaker_dir : quiet.

Lemma quiet_get_config_install_dir options :
  quiet (get_config_install_dir host options).
Proof. unfold get_config_install_dir. quiet. Qed.

Lemma quiet_read_package_list dir : quiet (read_package_list dir).
Proof.
  unfold read_package_list. quiet. destruct (Re.search _ _); quiet.
Qed.

Lemma quiet_start_copy_file options source target :
  quiet (start_copy_file options source target).
Proof. unfold start_copy_file. quiet. Qed.

Lemma quiet_join_bucket bucket pkg : quiet (join_bucket bucket pkg).
Proof. unfold join_bucket. destruct bucket; quiet. Qed.

Lemma quiet_check_wait_for_copy_complete jobs :
  quiet (check_wait_for_copy_complete host jobs).
Proof.
  unfold check_wait_for_copy_complete. quiet.
  destruct a as [[out err] status]. quiet.
Qed.

Lemma quiet_inject_spring_config_location options subsystem :
  quiet (inject_spring_config_location host options subsystem).
Proof.
  unfold inject_spring_config_location. quiet.
  destruct (Re.search _ _); quiet.
  unfold first_char. destruct (Re.group1 _); quiet.
Qed.

#[local] Hint Resolve quiet_get_config_install_dir quiet_read_package_list
  quiet_start_copy_file quiet_join_bucket quiet_check_wait_for_copy_complete
  quiet_inject_spring_config_location : quiet.

Lemma run_and_monitor_log command a w :
  run_and_monitor host command a w
  = (with_disk w (act host a command (returncode (host_run host command w)) w)
       (EvRunAndMonitor command),
     Return (host_run host command w)).
Proof. reflexivity. Qed.

(** What a repair invocation does: it raises exactly when the command
    exits non-zero. *)
Lemma check_run_and_monitor_eq command w :
  check_run_and_monitor host command External w
  = let r := host_run host command w in
    (with_disk w (host_disk host command w) (EvCheckRunAndMonitor command),
     if returncode r =? 0 then Return r
     else Raise (host_error host command r)).
Proof.
  unfold check_run_and_monitor, bind. cbn [shell act].
  now destruct (returncode (host_run host command w) =? 0).
Qed.

Lemma install_package_log options package_dir pkg w w' :
  install_package host options package_dir pkg w = (w', Return tt) ->
  package_manager_log w'
  = package_manager_log w ++ [ EvRunAndMonitor (dpkg package_dir pkg);
                               EvCheckRunAndMonitor repair ].
Proof.
  unfold install_package. fold (dpkg package_dir pkg).
  unfold bind at 1.
  destruct (print _ w) as [w1 [[]|e]] eqn:H1; [|discriminate].
  apply quiet_print in H1.
  unfold bind at 1. rewrite run_and_monitor_log.
  unfold bind at 1. rewrite check_run_and_monitor_eq. cbv zeta.
  destruct (returncode _ =? 0); [|discriminate].
  intros H. apply quiet_inject_spring_config_location in H.
  rewrite H, !log_with_disk, H1, <- app_assoc. reflexivity.
Qed.

Lemma for_each_install_log options package_dir package_list w w' :
  for_each package_list (install_package host options package_dir) w
  = (w', Return tt) ->
  package_manager_log w'
  = package_manager_log w ++ installs package_dir package_list.
Proof.
  revert w; induction package_list as [|pkg rest IH]; intros w;
    cbn [for_each].
  - intros [= <-]. symmetry. apply app_nil_r.
  - unfold bind at 1.
    destruct (install_package _ _ _ _ w) as [w1 [[]|e]] eqn:H1;
      [|discriminate].
    intros H. rewrite (IH _ H), (install_package_log _ _ _ _ _ H1).
    now rewrite <- app_assoc.
Qed.

Lemma repairs_of_log l :
  List.filter is_repair (List.filter is_package_manager l)
  = List.filter is_repair l.
Proof.
  induction l as [|e l IH]; [reflexivity|].
  destruct e; cbn; rewrite ?IH; reflexivity.
Qed.

Lemma repairs_of_installs package_dir package_list :
  length (List.filter is_repair (installs package_dir package_list))
  = length package_list.
Proof.
  induction package_list as [|pkg rest IH]; [reflexivity|].
  change (installs package_dir (pkg :: rest))
    with ([ EvRunAndMonitor (dpkg package_dir pkg);
            EvCheckRunAndMonitor repair ] ++ installs package_dir rest).
  rewrite List.filter_app, length_app, IH. reflexivity.
Qed.

Lemma get_spinnaker_dir_files options w w' r :
  get_spinnaker_dir host options w = (w', Return r) -> files w' = files w.
Proof.
  unfold get_spinnaker_dir. unfold bind at 1, os_path_exists.
  destruct (exists_in w _); cbn [negb].
  - unfold bind, ret. now intros [= <- _].
  - unfold bind at 1. unfold bind at 1, print, emit.
    unfold safe_mkdir, bind at 1. cbn [run_quick shell act].
    destruct (returncode _ =? 0); cbn [negb raise ret];
      [now intros [= <- _]|discriminate].
Qed.

(** C5: in a run of the package step that goes through, the requests to
    the package manager are, in this order, the direct install of each
    package of the list in list order, each followed at once by a repair,
    and one more repair at the end: one repair more than there are
    packages. *)
Theorem one_repair_per_package_and_a_last_one
  options bucket content m w w' :
  spinnaker options = true ->
  files w !! Str.path_join (root_of options) ["release_config.cfg"]
  = Some content ->
  Re.search Re.PackageList content = Some m ->
  _install_spinnaker_packages_helper host options bucket w
  = (w', Return tt) ->
  let package_list := Str.split (Re.group1 m) in
  let package_dir := Str.path_join (root_of options) ["install"] in
  package_manager_log w'
  = package_manager_log w ++ installs package_dir package_list
    ++ [EvCheckRunAndMonitor repair]
  /\ repairs w' = (repairs w + length package_list + 1)%nat.
Proof.
  intros Hon Hfile Hm Hrun package_list package_dir.
  assert (Hlog : package_manager_log w'
                 = package_manager_log w ++ installs package_dir package_list
                   ++ [EvCheckRunAndMonitor repair]).
  { revert Hrun. unfold _install_spinnaker_packages_helper.
    rewrite Hon. cbn [negb].
    unfold bind at 1, print. rewrite emit_eq.
    unfold bind at 1, get_config_install_dir. unfold bind at 1.
    destruct (get_spinnaker_dir host options _) as [w2 [r2|e]] eqn:H2;
      [|discriminate].
    pose proof (quiet_get_spinnaker_dir _ _ _ _ H2) as Hq2.
    pose proof (get_spinnaker_dir_files _ _ _ _ H2) as Hf2.
    unfold ret at 1. unfold bind at 1.
    destruct (get_spinnaker_dir host options w2) as [w3 [r3|e]] eqn:H3;
      [|discriminate].
    pose proof (quiet_get_spinnaker_dir _ _ _ _ H3) as Hq3.
    pose proof (get_spinnaker_dir_files _ _ _ _ H3) as Hf3.
    apply get_spinnaker_dir_creates in H3 as [-> _].
    unfold bind at 1, read_package_list, bind at 1, read_file.
    rewrite Hf3, Hf2. cbn [files with_disk fst]. rewrite Hfile, Hm.
    unfold ret at 1. fold package_list.
    unfold bind at 1. rewrite emit_eq.
    fold package_dir. unfold bind at 1.
    destruct (safe_mkdir host package_dir _) as [w4 [[]|e]] eqn:H4;
      [|discriminate].
    apply quiet_safe_mkdir in H4.
    unfold bind at 1.
    destruct (collect package_list _ w4) as [w5 [jobs|e]] eqn:H5;
      [|discriminate].
    apply quiet_collect in H5;
      [|intros pkg; apply quiet_bind;
        [apply quiet_join_bucket|intros; apply quiet_start_copy_file]].
    unfold bind at 1.
    destruct (check_wait_for_copy_complete host jobs w5) as [w6 [[]|e]] eqn:H6;
      [|discriminate].
    apply quiet_check_wait_for_copy_complete in H6.
    unfold bind at 1.
    destruct (for_each package_list _ w6) as [w7 [[]|e]] eqn:H7;
      [|discriminate].
    apply for_each_install_log in H7.
    unfold bind at 1. rewrite check_run_and_monitor_eq. cbv zeta.
    destruct (returncode _ =? 0); [|discriminate].
    intros [= <-].
    rewrite log_with_disk, H7, H6, H5, H4, log_with_disk, Hq3, Hq2,
      log_with_disk.
    cbn [is_package_manager]. now rewrite !app_nil_r, <- !app_assoc. }
  split; [exact Hlog|].
  unfold repairs. rewrite <- (repairs_of_log (log w')).
  fold (package_manager_log w'). rewrite Hlog.
  rewrite !List.filter_app, !length_app, repairs_of_installs.
  unfold package_manager_log. rewrite repairs_of_log. cbn. lia.
Qed.

End PackageManager.

Lemma one_repair_per_package_and_a_last_one_witness :
  let w' := fst (_install_spinnaker_packages_helper Sample.calm
                   Sample.defaults (Some "/mnt/release") Sample.installed) in
  package_manager_log w'
  = [ EvRunAndMonitor "sudo dpkg -i /opt/spinnaker/install/gate_1.0_all.deb";
      EvCheckRunAndMonitor repair;
      EvRunAndMonitor "sudo dpkg -i /opt/spinnaker/install/orca_1.0_all.deb";
      EvCheckRunAndMonitor repair;
      EvRunAndMonitor "sudo dpkg -i /opt/spinnaker/install/deck_2.0_all.deb";
      EvCheckRunAndMonitor repair;
      EvCheckRunAndMonitor repair ]
  /\ repairs w' = 4%nat.
Proof.
  refine (one_repair_per_package_and_a_last_one Sample.calm Sample.defaults
            (Some "/mnt/release") Sample.release_config
            {| Re.subject := Sample.release_config; Re.start0 := 11;
               Re.end0 := 77; Re.start1 := 26; Re.end1 := 76 |}
            Sample.installed _ _ _ _ _);
    vm_compute; reflexivity.
Defined.

(** ** More on the copies, the component names and aborted runs *)

Section Further.

#[local] Arguments append !s1 s2 : simpl nomatch.

Variable host : Host.

Lemma communicate_eq j w :
  communicate host j w
  = (with_disk w (host_disk host (args j) w) (EvCommunicate (pid j)),
     Return (None, Some (snd (host_wait host j w)), fst (host_wait host j w))).
Proof. unfold communicate. now destruct (host_wait host j w). Qed.

(** X1: the jobs are joined in submission order up to the first one that
    exits non-zero, and no further; the wait then ends in a RuntimeError. *)
Lemma wait_stops_at_first_failure before j after w :
  (forall p w0, In p before -> fst (host_wait host p w0) = 0) ->
  (forall w0, fst (host_wait host j w0) <> 0) ->
  exists w' message,
    check_wait_for_copy_complete host (before ++ j :: after) w
    = (w', Raise (RuntimeError message))
    /\ log w' = log w ++ joined (before ++ [j]).
Proof.
  intros Hok Hbad. revert w.
  induction before as [|p before IH]; intros w;
    unfold check_wait_for_copy_complete; cbn [app for_each];
    unfold bind at 1; unfold bind at 1; rewrite communicate_eq.
  - destruct (Z.eqb_spec (fst (host_wait host j w)) 0) as [E|_];
      [now apply Hbad in E|].
    cbn [negb raise]. eexists _, _. split; reflexivity.
  - rewrite (Hok p w (or_introl eq_refl)). cbn [Z.eqb negb ret].
    destruct (IH (fun q w0 H => Hok q w0 (or_intror H))
                (with_disk w (host_disk host (args p) w)
                   (EvCommunicate (pid p))))
      as (w' & message & Hrun & Hlog).
    unfold check_wait_for_copy_complete in Hrun. rewrite Hrun.
    exists w', message. split; [reflexivity|].
    rewrite Hlog. cbn [with_disk log joined map app].
    now rewrite <- app_assoc.
Qed.

(** X2: when every job exits 0, all of them are joined, in submission
    order, and the wait returns. *)
Lemma wait_joins_all jobs w :
  (forall p w0, In p jobs -> fst (host_wait host p w0) = 0) ->
  exists w',
    check_wait_for_copy_complete host jobs w = (w', Return tt)
    /\ log w' = log w ++ joined jobs.
Proof.
  revert w. induction jobs as [|p jobs IH]; intros w Hok;
    unfold check_wait_for_copy_complete; cbn [for_each].
  - exists w. split; [reflexivity|]. symmetry. apply app_nil_r.
  - unfold bind at 1; unfold bind at 1; rewrite communicate_eq.
    rewrite (Hok p w (or_introl eq_refl)). cbn [Z.eqb negb ret].
    destruct (IH (with_disk w (host_disk host (args p) w)
                    (EvCommunicate (pid p)))
                (fun q w0 H => Hok q w0 (or_intror H)))
      as (w' & Hrun & Hlog).
    unfold check_wait_for_copy_complete in Hrun. rewrite Hrun.
    exists w'. split; [reflexivity|].
    rewrite Hlog. cbn [with_disk log joined map app].
    now rewrite <- app_assoc.
Qed.

Lemma find_from_absent pos pos' s sub :
  0 <= pos -> 0 <= pos' ->
  Str.find_from pos s sub = -1 -> Str.find_from pos' s sub = -1.
Proof.
  revert pos pos'; induction s as [|a s IH]; intros pos pos' Hp Hp';
    rewrite (find_from_eq pos), (find_from_eq pos');
    destruct (Str.startswith _ sub); intros H; try lia.
  apply (IH (pos + 1)); (lia || exact H).
Qed.

Lemma find_from_underscore pos a b :
  0 <= pos -> Str.find_from pos a "_" = -1 ->
  Str.find_from pos (a +:+ "_" +:+ b) "_"
  = pos + Z.of_nat (String.length a).
Proof.
  revert pos; induction a as [|c a IH]; intros pos Hp.
  - intros _. rewrite find_from_eq.
    change ("" +:+ "_" +:+ b) with ("_" +:+ b).
    rewrite startswith_self. cbn. lia.
  - rewrite (find_from_eq pos (String c a)),
      (find_from_eq pos (String c a +:+ "_" +:+ b)).
    cbn [append Str.startswith]. rewrite !startswith_nil.
    destruct (Ascii.eqb "_" c); [lia|].
    change (String "_" b) with ("_" +:+ b).
    intros H. rewrite (IH (pos + 1)); [cbn [String.length]; lia|lia|exact H].
Qed.

(** X3: with an underscore in the file name, the component is the text
    before the first underscore. *)
Lemma subsystem_of_underscore a b :
  Str.find a "_" = -1 -> subsystem_of (a +:+ "_" +:+ b) = a.
Proof.
  intros H. unfold subsystem_of, Str.find.
  rewrite find_from_underscore by (lia || exact H).
  rewrite Z.add_0_l, slice_to by (rewrite length_append; lia).
  apply take_app_exact.
Qed.

(** Whether it returns or raises, a round of the loop asks for the direct
    install and then for the repair. *)
Lemma install_package_log_any options package_dir pkg w w' r :
  install_package host options package_dir pkg w = (w', r) ->
  package_manager_log w'
  = package_manager_log w ++ [ EvRunAndMonitor (dpkg package_dir pkg);
                               EvCheckRunAndMonitor repair ].
Proof.
  unfold install_package. fold (dpkg package_dir pkg).
  unfold bind at 1, print. rewrite emit_eq.
  unfold bind at 1. rewrite run_and_monitor_log.
  unfold bind at 1. rewrite check_run_and_monitor_eq. cbv zeta.
  destruct (returncode _ =? 0).
  - intros H. apply quiet_inject_spring_config_location in H.
    rewrite H, !log_with_disk, <- !app_assoc. reflexivity.
  - intros [= <- _]. rewrite !log_with_disk, <- !app_assoc. reflexivity.
Qed.

(** X4: also in a run that is cut short, what was asked of the package
    manager is the beginning of the same sequence: the packages are taken
    in list order, each direct install followed by its repair, and a loop
    that returns has gone through the whole list. *)
Lemma for_each_install_log_any options package_dir package_list w w' r :
  for_each package_list (install_package host options package_dir) w
  = (w', r) ->
  exists n,
    (n <= length package_list)%nat
    /\ package_manager_log w'
       = package_manager_log w ++ installs package_dir (firstn n package_list)
    /\ (r = Return tt -> n = length package_list).
Proof.
  revert w; induction package_list as [|pkg rest IH]; intros w;
    cbn [for_each].
  - intros [= <- <-]. exists 0%nat. cbn. rewrite app_nil_r. auto.
  - unfold bind at 1.
    destruct (install_package _ _ _ _ w) as [w1 [[]|e]] eqn:H1;
      apply install_package_log_any in H1.
    + intros H. apply IH in H as (n & Hn & Hlog & Hall).
      exists (S n). cbn [length firstn]. split; [lia|]. split; [|auto].
      rewrite Hlog, H1, <- app_assoc. reflexivity.
    + intros [= <- <-]. exists 1%nat. cbn [length firstn]. split; [lia|].
      split; [|discriminate]. rewrite H1. cbn. reflexivity.
Qed.

End Further.

(** ** The primitives on explicit inputs *)

Example slice_negative_bound : Str.slice "deck.deb" 0 (-1) = "deck.de".
Proof. reflexivity. Qed.

Example find_absent : Str.find "deck.deb" "_" = -1.
Proof. reflexivity. Qed.

Example split_on_blanks :
  Str.split "  a.deb b_1.deb   c.deb " = ["a.deb"; "b_1.deb"; "c.deb"].
Proof. reflexivity. Qed.

Example strip_both_ends : Str.strip (" boom " +:+ Str.nl) = "boom".
Proof. reflexivity. Qed.

Example format_negative : Str.of_Z (-9) = "-9".
Proof. reflexivity. Qed.

Example join_relative :
  Str.path_join "/opt" ["gate"; "bin"; "gate"] = "/opt/gate/bin/gate".
Proof. reflexivity. Qed.

Example join_absolute : Str.path_join "/opt/" ["/tmp/x"; "bin"] = "/tmp/x/bin".
Proof. reflexivity. Qed.

Example options_line_found :
  option_map Re.group1 (Re.search Re.DefaultJvmOpts Sample.gate_script)
  = Some ("'" +:+ Str.dquote +:+ "-Djava.security.egd=file:/dev/urandom"
          +:+ Str.dquote +:+ "'").
Proof. reflexivity. Qed.

Example empty_options_line_is_no_match :
  Re.search Re.DefaultJvmOpts
    ("a" +:+ Str.nl +:+ "DEFAULT_JVM_OPTS=" +:+ Str.nl +:+ "b" +:+ Str.nl)
  = None.
Proof. reflexivity. Qed.

Example package_list_read :
  snd (read_package_list "/opt/spinnaker" Sample.installed)
  = Return ["gate_1.0_all.deb"; "orca_1.0_all.deb"; "deck_2.0_all.deb"].
Proof. vm_compute. reflexivity. Qed.

Example deck_is_skipped :
  inject_spring_config_location Sample.calm Sample.defaults "deck"
    Sample.empty_disk
  = (Sample.empty_disk, Return tt).
Proof. reflexivity. Qed.

Example missing_options_line_is_a_value_error :
  snd (inject_spring_config_location Sample.calm Sample.defaults "gate"
         {| files := <["/opt/gate/bin/gate" := "exec java"]> ∅; dirs := ∅;
            spawned := 0; log := [] |})
  = Raise (ValueError "Expected DEFAULT_JVM_OPTS in /opt/gate/bin/gate").
Proof. vm_compute. reflexivity. Qed.

Example first_run_seeds_local_yml :
  let w := {| files := <["/opt/spinnaker/config/default-spinnaker-local.yml"
                          := "services: {}"]> ∅;
              dirs := {["/opt/spinnaker"]}; spawned := 0; log := [] |} in
  let r := provide_local_yml Sample.calm Sample.defaults w in
  snd r = Return tt
  /\ files (fst r) !! local_yml = Some "services: {}"
  /\ files (fst r) !! "/opt/spinnaker/config/default-spinnaker-local.yml"
     = Some "services: {}".
Proof. vm_compute. repeat split. Qed.

(** ** The installation root and the release path *)

Section Validation.

Variable host : Host.

(** X5: the installation root is created only when it is missing.  A call
    that returns leaves the files as they were and the root in place, and
    calling again changes nothing. *)
Theorem get_spinnaker_dir_settles options w w' r :
  get_spinnaker_dir host options w = (w', Return r) ->
  r = root_of options
  /\ files w' = files w
  /\ exists_in w' (root_of options) = true
  /\ get_spinnaker_dir host options w' = (w', Return r).
Proof.
  intros H. pose proof (get_spinnaker_dir_files _ _ _ _ _ H) as Hf.
  apply get_spinnaker_dir_creates in H as [-> Hex].
  repeat split; try assumption.
  now apply get_spinnaker_dir_present.
Qed.

(** X6: a release path that passes the check was either found on the local
    disk, with no command run, or it is a gs:// (s3://) path for which the
    client probe and the listing were run, in this order, and both exited
    0.  The check never changes the disk. *)
Theorem check_release_dir_passes options w w' :
  check_release_dir host options w = (w', Return tt) ->
  exists path,
    release_path options = Some path
    /\ files w' = files w /\ dirs w' = dirs w
    /\ ((exists_in w path = true /\ w' = w)
        \/ (exists_in w path = false
            /\ Str.startswith path "gs://" = true
            /\ log w' = log w ++ [ EvRunQuick "gsutil --version";
                                   EvRunQuick ("gsutil ls " +:+ path) ])
        \/ (exists_in w path = false
            /\ Str.startswith path "s3://" = true
            /\ log w' = log w ++ [ EvRunQuick "aws --version";
                                   EvRunQuick ("aws s3 ls " +:+ path) ])).
Proof.
  unfold check_release_dir.
  destruct (release_path options) as [[|c rest]|]; try discriminate.
  set (path := String c rest). unfold bind at 1, os_path_exists.
  destruct (exists_in w path) eqn:Hex.
  - intros [= <-]. exists path. repeat split. left. auto.
  - destruct (Str.startswith path "gs://") eqn:Hgs;
      [|destruct (Str.startswith path "s3://") eqn:Hs3; [|discriminate]].
    + unfold check_google_path, bind at 1. unfold bind at 1.
      cbn [run_quick shell].
      destruct (returncode (host_run host "gsutil --version" w) =? 0);
        cbn [negb raise ret]; [|discriminate].
      unfold bind at 1. cbn [run_quick shell].
      match goal with
      | |- context [returncode (host_run host ?c ?w1) =? 0] =>
          destruct (returncode (host_run host c w1) =? 0)
      end; cbn [negb raise ret]; [|discriminate].
      intros [= <-]. exists path. cbn. rewrite <- app_assoc.
      repeat split. right. left. auto.
    + unfold check_s3_path, bind at 1. unfold bind at 1.
      cbn [run_quick shell].
      destruct (returncode (host_run host "aws --version" w) =? 0);
        cbn [negb raise ret]; [|discriminate].
      unfold bind at 1. cbn [run_quick shell].
      match goal with
      | |- context [returncode (host_run host ?c ?w1) =? 0] =>
          destruct (returncode (host_run host c w1) =? 0)
      end; cbn [negb raise ret]; [|discriminate].
      intros [= <-]. exists path. cbn. rewrite <- app_assoc.
      repeat split. right. right. auto.
Qed.

(** X7: a missing or empty release path, and a path that is not on the
    local disk and has neither scheme, are refused with a ValueError
    before any command is run: the state is exactly as it was. *)
Theorem check_release_dir_refuses_without_running options w :
  Str.truthy (release_path options) = false
  \/ (exists path, release_path options = Some path
                   /\ exists_in w path = false
                   /\ Str.startswith path "gs://" = false
                   /\ Str.startswith path "s3://" = false) ->
  exists message,
    check_release_dir host options w = (w, Raise (ValueError message)).
Proof.
  unfold check_release_dir. intros [Hempty|(path & Hpath & Hex & Hgs & Hs3)].
  - destruct (release_path options) as [[|c rest]|]; try discriminate;
      eexists; reflexivity.
  - rewrite Hpath. destruct path as [|c rest]; [eexists; reflexivity|].
    unfold bind, os_path_exists. rewrite Hex, Hgs, Hs3.
    eexists; reflexivity.
Qed.

(** X8: the region is asked for only with an s3:// release path.  With any
    other release path, or with a region, validation is the runtime check
    followed by the check of the release path, and nothing else. *)
Theorem check_options_without_region_test runtime_check options path w :
  release_path options = Some path ->
  Str.startswith path "s3://" = false \/ Str.truthy (region options) = true ->
  check_options host runtime_check options w
  = (runtime_check options ;; check_release_dir host options) w.
Proof.
  intros Hpath Hcase. unfold check_options. rewrite Hpath.
  replace (Str.startswith path "s3://" && negb (Str.truthy (region options)))
    with false by (destruct Hcase as [-> | ->]; [reflexivity|];
                   now rewrite andb_false_r).
  unfold bind. destruct (runtime_check options w) as [w1 [[]|e]];
    [|reflexivity].
  destruct (check_release_dir host options w1) as [w2 [[]|e]]; reflexivity.
Qed.

(** X9: [path_exists] never raises and never changes the disk; for a path
    without a storage scheme it runs no command at all and answers what
    the local disk says. *)
Theorem path_exists_only_looks path w :
  exists w' answer,
    path_exists host path w = (w', Return answer)
    /\ files w' = files w /\ dirs w' = dirs w
    /\ (Str.startswith path "gs://" = false ->
        Str.startswith path "s3://" = false ->
        w' = w /\ answer = exists_in w path).
Proof.
  unfold path_exists.
  destruct (Str.startswith path "gs://");
    [|destruct (Str.startswith path "s3://")].
  - eexists _, _. split; [reflexivity|]. repeat split; discriminate.
  - eexists _, _. split; [reflexivity|]. repeat split; discriminate.
  - exists w, (exists_in w path). repeat split.
Qed.

End Validation.

Lemma get_spinnaker_dir_settles_witness :
  let w' := fst (get_spinnaker_dir Sample.calm Sample.defaults
                   Sample.empty_disk) in
  files w' = files Sample.empty_disk
  /\ exists_in w' "/opt/spinnaker" = true
  /\ get_spinnaker_dir Sample.calm Sample.defaults w'
     = (w', Return "/opt/spinnaker").
Proof.
  destruct (get_spinnaker_dir_settles Sample.calm Sample.defaults
              Sample.empty_disk
              (fst (get_spinnaker_dir Sample.calm Sample.defaults
                      Sample.empty_disk))
              "/opt/spinnaker")
    as (_ & Hf & Hex & Hagain).
  - vm_compute. reflexivity.
  - cbv zeta. repeat split; assumption.
Defined.

Lemma check_release_dir_passes_witness :
  exists path,
    release_path Sample.s3_without_region = Some path
    /\ log (fst (check_release_dir Sample.calm Sample.s3_without_region
                   Sample.empty_disk))
       = [ EvRunQuick "aws --version"; EvRunQuick ("aws s3 ls " +:+ path) ].
Proof.
  destruct (check_release_dir_passes Sample.calm Sample.s3_without_region
              Sample.empty_disk
              (fst (check_release_dir Sample.calm Sample.s3_without_region
                      Sample.empty_disk)))
    as (path & Hpath & _ & _ & [[Hex _]|[(_ & Hgs & _)|(_ & _ & Hlog)]]).
  - vm_compute. reflexivity.
  - injection Hpath as <-. vm_compute in Hex. discriminate Hex.
  - injection Hpath as <-. vm_compute in Hgs. discriminate Hgs.
  - exists path. split; [assumption|exact Hlog].
Defined.

Lemma check_release_dir_refuses_without_running_witness :
  exists message,
    check_release_dir Sample.calm
      {| spinnaker_dir := None; release_path := Some "ftp://mirror/release";
         region := None; dependencies := true; spinnaker := true |}
      Sample.installed
    = (Sample.installed, Raise (ValueError message)).
Proof.
  apply check_release_dir_refuses_without_running. right.
  exists "ftp://mirror/release". repeat split; vm_compute; reflexivity.
Defined.

Lemma check_options_without_region_test_witness :
  check_options Sample.calm Sample.no_runtime_check Sample.defaults
    Sample.installed
  = (Sample.installed, Return tt).
Proof.
  rewrite (check_options_without_region_test Sample.calm
             Sample.no_runtime_check Sample.defaults "/mnt/release"
             Sample.installed).
  - vm_compute. reflexivity.
  - reflexivity.
  - left. reflexivity.
Defined.

(** ** What the patch touches *)

Section PatchFrame.

Variable host : Host.

Lemma temp_name_free w : files w !! temp_name w = None.
Proof.
  apply not_elem_of_dom. unfold temp_name.
  pose proof (fresh_string_of_set_fresh (dom (files w) ∪ dirs w) "/tmp/tmp").
  set_solver.
Qed.

Lemma check_run_quick_raises command a w w' e :
  check_run_quick host command a w = (w', Raise e) ->
  returncode (host_run host command w) <> 0
  /\ w' = with_disk w (act host a command (returncode (host_run host command w)) w)
            (EvRunQuick command).
Proof.
  unfold check_run_quick, bind. cbn [run_quick shell].
  destruct (Z.eqb_spec (returncode (host_run host command w)) 0) as [E|E];
    cbn [ret raise]; [discriminate|].
  intros [= <- _]. auto.
Qed.

(** X11: a patch that goes through changes one file, the launch script.
    Every other file and every directory is as before (the temporary file
    is gone), and the only commands run are the chmod and the mv. *)
Theorem patch_changes_only_the_launch_script
  options subsystem content m w w1 :
  subsystem <> "deck" ->
  files w !! launch_script subsystem = Some content ->
  Re.search Re.DefaultJvmOpts content = Some m ->
  Str.find (Re.group1 m) key < 0 ->
  inject_spring_config_location host options subsystem w = (w1, Return tt) ->
  exists content1,
    files w1 = <[launch_script subsystem := content1]> (files w)
    /\ dirs w1 = dirs w
    /\ log w1
       = log w ++ [ EvRunQuick ("chmod --reference=" +:+ launch_script subsystem
                                +:+ " " +:+ temp_name w);
                    EvRunQuick ("sudo mv " +:+ temp_name w +:+ " "
                                +:+ launch_script subsystem) ].
Proof.
  intros Hdeck Hfile Hm Hfind. apply String.eqb_neq in Hdeck.
  destruct (group1_nonempty _ _ Hm) as (first & rest & Hv).
  unfold inject_spring_config_location. rewrite Hdeck.
  fold (launch_script subsystem). set (path := launch_script subsystem) in *.
  unfold bind at 1, read_file. rewrite Hfile, Hm.
  fold key. destruct (Z.leb_spec 0 (Str.find (Re.group1 m) key)); [lia|].
  rewrite Hv. unfold first_char. unfold bind at 1, ret at 1.
  unfold bind at 1. unfold write_temp at 1. fold (temp_name w).
  set (content1 := Str.concat (new_content content m first)).
  set (wt := {| files := <[temp_name w:=content1]> (files w); dirs := dirs w;
                spawned := spawned w; log := log w |}).
  unfold bind at 1.
  destruct (check_run_quick host _ Observe wt) as [w2 [r2|e2]] eqn:H2;
    [|discriminate].
  apply check_run_quick_returns in H2 as [_ ->].
  unfold bind at 1.
  destruct (check_run_quick host _ (Move (temp_name w) path) _)
    as [w3 [r3|e3]] eqn:H3; [|discriminate].
  apply check_run_quick_returns in H3 as [_ ->].
  intros [= <-]. exists content1.
  cbn. rewrite lookup_insert_eq. cbn.
  rewrite delete_insert_id by apply temp_name_free.
  rewrite <- app_assoc. repeat split.
Qed.

(** X12: when the patch raises, either the last command it ran is the
    final sudo mv (and what a failed mv leaves behind is not the script's
    to say), or the launch script and the directories are as they were:
    a missing script, a missing options line and a failed chmod change
    nothing of them. *)
Theorem failed_patch_leaves_the_launch_script options subsystem w w' e :
  inject_spring_config_location host options subsystem w = (w', Raise e) ->
  (exists l,
     log w' = l ++ [ EvRunQuick ("sudo mv " +:+ temp_name w +:+ " "
                                 +:+ launch_script subsystem) ])
  \/ (files w' !! launch_script subsystem = files w !! launch_script subsystem
      /\ dirs w' = dirs w).
Proof.
  unfold inject_spring_config_location.
  destruct (String.eqb subsystem "deck"); [discriminate|].
  fold (launch_script subsystem). set (path := launch_script subsystem).
  unfold bind at 1, read_file.
  destruct (files w !! path) as [content|] eqn:Hfile;
    [|intros [= <- _]; right; now rewrite Hfile].
  destruct (Re.search Re.DefaultJvmOpts content) as [m|];
    [|intros [= <- _]; auto].
  destruct (0 <=? Str.find (Re.group1 m) _); [discriminate|].
  unfold first_char. destruct (Re.group1 m) as [|first rest];
    [intros [= <- _]; auto|].
  unfold bind at 1, ret at 1.
  unfold bind at 1. unfold write_temp at 1. fold (temp_name w).
  set (content1 := Str.concat _).
  set (wt := {| files := <[temp_name w:=content1]> (files w); dirs := dirs w;
                spawned := spawned w; log := log w |}).
  assert (Hne : temp_name w <> path).
  { intros E. pose proof (temp_name_free w) as Hfree.
    rewrite E, Hfile in Hfree. discriminate. }
  unfold bind at 1.
  destruct (check_run_quick host _ Observe wt) as [w2 [r2|e2]] eqn:H2.
  - apply check_run_quick_returns in H2 as [_ ->].
    set (w2 := with_disk wt _ _).
    unfold bind at 1.
    destruct (check_run_quick host _ (Move (temp_name w) path) w2)
      as [w3 [r3|e3]] eqn:H3; [discriminate|].
    apply check_run_quick_raises in H3 as [_ ->].
    intros [= <- _]. left. eexists. reflexivity.
  - apply check_run_quick_raises in H2 as [_ ->].
    intros [= <- _]. right. cbn [with_disk act files dirs fst snd wt].
    now rewrite lookup_insert_ne.
Qed.

(** X13: when the value of the options line is not quoted, the directive
    is put in front of it, between single quotes and followed by one
    space; the old value follows, unchanged. *)
Theorem patch_of_an_unquoted_value
  options subsystem content m w w1 first rest :
  subsystem <> "deck" ->
  files w !! launch_script subsystem = Some content ->
  Re.search Re.DefaultJvmOpts content = Some m ->
  Re.group1 m = String first rest ->
  first <> "039"%char -> first <> "034"%char ->
  Str.find (Re.group1 m) key < 0 ->
  inject_spring_config_location host options subsystem w = (w1, Return tt) ->
  exists content1 m1,
    files w1 !! launch_script subsystem = Some content1
    /\ Re.search Re.DefaultJvmOpts content1 = Some m1
    /\ Re.group1 m1 = directive Str.squote +:+ " " +:+ Re.group1 m.
Proof.
  intros Hdeck Hfile Hm Hv Hq1 Hq2 Hfind Hrun.
  apply String.eqb_neq in Hdeck.
  destruct (inject_patches _ _ _ _ _ _ _ Hdeck Hfile Hm Hfind Hrun)
    as (first' & rest' & Hv' & Hfile1).
  rewrite Hv in Hv'. injection Hv' as <- <-.
  destruct (search_new_content _ _ _ _ Hm Hv) as [Hm1 Hg1].
  cbv zeta in Hm1, Hg1.
  eexists _, _. split; [exact Hfile1|]. split; [exact Hm1|].
  rewrite Hg1. unfold skipped, inserted, other_quote.
  apply Ascii.eqb_neq in Hq1, Hq2. rewrite Hq1, Hq2. cbn [orb].
  unfold splice. cbn [Str.take Str.drop].
  change ("" +:+ ?x) with x. reflexivity.
Qed.

End PatchFrame.

(** ** Seeding the user's configuration *)

Section Seeding.

Variable host : Host.
Variable options : Options.

(** X14: when the user has no spinnaker-local.yml and the step goes
    through, the new file holds exactly what the prototype holds, the
    user's directory exists, and no other file has changed: the prototype
    is still there and the temporary copy is gone. *)
Theorem new_local_yml_is_the_prototype w w' :
  exists_in w (root_of options) = true ->
  exists_in w local_yml = false ->
  provide_local_yml host options w = (w', Return tt) ->
  exists content,
    files w !! prototype_of options = Some content
    /\ files w' = <[local_yml := content]> (files w)
    /\ "/root/.spinnaker" ∈ dirs w'.
Proof.
  intros Hroot Hyml. unfold provide_local_yml, get_config_install_dir.
  unfold bind at 1. unfold bind at 1.
  rewrite (get_spinnaker_dir_present host options w Hroot). unfold ret at 1.
  unfold bind at 1, os_path_exists.
  change (Str.path_join (get_user_config_dir options) ["spinnaker-local.yml"])
    with local_yml.
  rewrite Hyml. cbn [negb].
  unfold bind at 1, print. rewrite emit_eq.
  fold (prototype_of options).
  unfold bind at 1, make_default_spinnaker_yml_from_path, read_file.
  cbn [with_disk files fst].
  destruct (files w !! prototype_of options) as [content|] eqn:Hproto;
    [|discriminate].
  unfold bind at 1. unfold write_temp at 1.
  match goal with
  | |- context [fresh_string_of_set "/tmp/tmp" ?X] =>
      change (fresh_string_of_set "/tmp/tmp" X) with (temp_name w)
  end.
  unfold bind at 1.
  match goal with
  | |- context [check_run_quick host ?c ?a ?w0] =>
      destruct (check_run_quick host c a w0) as [w2 [r2|e2]] eqn:H2;
        [|discriminate]
  end.
  apply check_run_quick_returns in H2 as [_ ->].
  unfold emit. intros [= <-]. exists content. split; [reflexivity|].
  cbn. rewrite lookup_insert_eq. cbn.
  rewrite delete_insert_id by apply temp_name_free.
  split; [reflexivity|]. set_solver.
Qed.

(** X15: without a prototype the step raises the IOError of opening it,
    and nothing on disk has changed. *)
Theorem missing_prototype_is_an_io_error w :
  exists_in w (root_of options) = true ->
  exists_in w local_yml = false ->
  files w !! prototype_of options = None ->
  exists w',
    provide_local_yml host options w
    = (w', Raise (IOError (prototype_of options)))
    /\ files w' = files w /\ dirs w' = dirs w.
Proof.
  intros Hroot Hyml Hproto. unfold provide_local_yml, get_config_install_dir.
  unfold bind at 1. unfold bind at 1.
  rewrite (get_spinnaker_dir_present host options w Hroot). unfold ret at 1.
  unfold bind at 1, os_path_exists.
  change (Str.path_join (get_user_config_dir options) ["spinnaker-local.yml"])
    with local_yml.
  rewrite Hyml. cbn [negb].
  unfold bind at 1, print. rewrite emit_eq.
  fold (prototype_of options).
  unfold bind at 1, make_default_spinnaker_yml_from_path, read_file.
  cbn [with_disk files fst]. rewrite Hproto.
  eexists. repeat split.
Qed.

End Seeding.

Lemma patch_changes_only_the_launch_script_witness :
  exists content1,
    files patched_once
    = <[launch_script "gate" := content1]> (files Sample.installed)
    /\ dirs patched_once = dirs Sample.installed.
Proof.
  destruct (patch_changes_only_the_launch_script Sample.calm Sample.defaults
              "gate" Sample.gate_script
              {| Re.subject := Sample.gate_script; Re.start0 := 19;
                 Re.end0 := 79; Re.start1 := 37; Re.end1 := 78 |}
              Sample.installed patched_once)
    as (content1 & Hf & Hd & _).
  - discriminate.
  - vm_compute. reflexivity.
  - vm_compute. reflexivity.
  - vm_compute. reflexivity.
  - vm_compute. reflexivity.
  - exists content1. split; assumption.
Defined.

Lemma failed_patch_leaves_the_launch_script_witness :
  let r := inject_spring_config_location chmod_fails Sample.defaults "gate"
             Sample.installed in
  (exists e, snd r = Raise e)
  /\ files (fst r) !! launch_script "gate" = Some Sample.gate_script.
Proof.
  cbv zeta. split; [eexists; vm_compute; reflexivity|].
  destruct (failed_patch_leaves_the_launch_script chmod_fails Sample.defaults
              "gate" Sample.installed
              (fst (inject_spring_config_location chmod_fails Sample.defaults
                      "gate" Sample.installed))
              (Sample.failure "chmod --reference=/opt/gate/bin/gate /tmp/tmp"
                 {| returncode := 1; stdout := "Operation not permitted" |}))
    as [[l Hl]|[Hf _]].
  - vm_compute. reflexivity.
  - exfalso. vm_compute in Hl.
    apply (app_inj_tail [] l) in Hl as [_ Hl]. discriminate Hl.
  - rewrite Hf. vm_compute. reflexivity.
Defined.

Lemma patch_of_an_unquoted_value_witness :
  exists content1 m1,
    files (fst (inject_spring_config_location Sample.calm Sample.defaults
                  "echo" plain_disk)) !! launch_script "echo"
    = Some content1
    /\ Re.search Re.DefaultJvmOpts content1 = Some m1
    /\ Re.group1 m1 = directive Str.squote +:+ " -Xmx1g".
Proof.
  destruct (patch_of_an_unquoted_value Sample.calm Sample.defaults "echo"
              plain_script
              {| Re.subject := plain_script; Re.start0 := 9; Re.end0 := 34;
                 Re.start1 := 27; Re.end1 := 33 |}
              plain_disk
              (fst (inject_spring_config_location Sample.calm Sample.defaults
                      "echo" plain_disk))
              "-"%char "Xmx1g")
    as (content1 & m1 & H1 & H2 & H3).
  - discriminate.
  - vm_compute. reflexivity.
  - vm_compute. reflexivity.
  - vm_compute. reflexivity.
  - discriminate.
  - discriminate.
  - vm_compute. reflexivity.
  - vm_compute. reflexivity.
  - exists content1, m1. repeat split; assumption.
Defined.

Lemma new_local_yml_is_the_prototype_witness :
  exists content,
    files fresh_install !! prototype_of Sample.defaults = Some content
    /\ files (fst (provide_local_yml Sample.calm Sample.defaults fresh_install))
       = <[local_yml := content]> (files fresh_install).
Proof.
  destruct (new_local_yml_is_the_prototype Sample.calm Sample.defaults
              fresh_install
              (fst (provide_local_yml Sample.calm Sample.defaults
                      fresh_install)))
    as (content & Hp & Hf & _).
  - vm_compute. reflexivity.
  - vm_compute. reflexivity.
  - vm_compute. reflexivity.
  - exists content. split; assumption.
Defined.

Lemma missing_prototype_is_an_io_error_witness :
  exists w',
    provide_local_yml Sample.calm Sample.defaults
      {| files := ∅; dirs := {["/opt/spinnaker"]}; spawned := 0; log := [] |}
    = (w', Raise (IOError "/opt/spinnaker/config/default-spinnaker-local.yml")).
Proof.
  destruct (missing_prototype_is_an_io_error Sample.calm Sample.defaults
              {| files := ∅; dirs := {["/opt/spinnaker"]}; spawned := 0;
                 log := [] |})
    as (w' & Hrun & _).
  - vm_compute. reflexivity.
  - vm_compute. reflexivity.
  - vm_compute. reflexivity.
  - exists w'. exact Hrun.
Defined.

(** ** Runs that install nothing *)

Section Nothing.

Variable host : Host.

Lemma idle_ret {A} (a : A) : idle (ret a).
Proof. intros w w' r [= <- _]. reflexivity. Qed.

Lemma idle_raise {A} e : idle (@raise A e).
Proof. intros w w' r [= <- _]. reflexivity. Qed.

Lemma idle_bind {A B} (c : Py A) (k : A -> Py B) :
  idle c -> (forall a, idle (k a)) -> idle (bind c k).
Proof.
  intros Hc Hk w w' r. unfold bind.
  destruct (c w) as [w1 [a|e]] eqn:E.
  - intros H. rewrite (Hk _ _ _ _ H). eapply Hc, E.
  - intros [= <- _]. eapply Hc, E.
Qed.

Lemma idle_if {A} (b : bool) (c1 c2 : Py A) :
  idle c1 -> idle c2 -> idle (if b then c1 else c2).
Proof. now destruct b. Qed.

Lemma idle_emit e : idle (emit e).
Proof. intros w w' r [= <- _]. reflexivity. Qed.

Lemma idle_os_path_exists path : idle (os_path_exists path).
Proof. intros w w' r [= <- _]. reflexivity. Qed.

Lemma idle_read_file path : idle (read_file path).
Proof.
  intros w w' r. unfold read_file.
  destruct (files w !! path); intros [= <- _]; reflexivity.
Qed.

Lemma idle_write_temp content : idle (write_temp content).
Proof. intros w w' r [= <- _]. reflexivity. Qed.

Lemma idle_run_quick command a : idle (run_quick host command a).
Proof. intros w w' r [= <- _]. reflexivity. Qed.

Ltac idle :=
  repeat first
    [ apply idle_bind; [|intros ?]
    | apply idle_if
    | apply idle_ret | apply idle_raise | apply idle_emit
    | apply idle_os_path_exists | apply idle_read_file
    | apply idle_write_temp | apply idle_run_quick ].

Lemma idle_check_run_quick command a : idle (check_run_quick host command a).
Proof. unfold check_run_quick. idle. Qed.

Lemma idle_get_spinnaker_dir options : idle (get_spinnaker_dir host options).
Proof. unfold get_spinnaker_dir, safe_mkdir, print. idle. Qed.

Lemma idle_provide_local_yml options : idle (provide_local_yml host options).
Proof.
  unfold provide_local_yml, get_config_install_dir, print,
    make_default_spinnaker_yml_from_path.
  idle; try apply idle_get_spinnaker_dir; apply idle_check_run_quick.
Qed.

Ltac hush :=
  repeat first
    [ apply quiet_ret | apply quiet_raise | apply quiet_print
    | apply quiet_os_path_exists | apply quiet_read_file
    | apply quiet_write_temp | apply quiet_run_quick
    | apply quiet_check_run_quick | apply quiet_get_spinnaker_dir
    | apply quiet_get_config_install_dir
    | apply quiet_if
    | apply quiet_bind; [|intros ?]
    | progress cbv zeta ].

Lemma quiet_provide_local_yml options : quiet (provide_local_yml host options).
Proof.
  unfold provide_local_yml, make_default_spinnaker_yml_from_path. hush.
Qed.

(** X16: with --nospinnaker the package step does nothing at all, and the
    whole of [install_spinnaker] never asks anything of the package
    manager and starts no copy, however it ends. *)
Theorem nospinnaker_installs_nothing options bucket w w' r :
  spinnaker options = false ->
  install_spinnaker host options w = (w', r) ->
  _install_spinnaker_packages_helper host options bucket w = (w, Return tt)
  /\ package_manager_log w' = package_manager_log w
  /\ spawned w' = spawned w.
Proof.
  intros Hoff Hrun. split.
  - unfold _install_spinnaker_packages_helper. now rewrite Hoff.
  - revert Hrun. unfold install_spinnaker, install_release,
      _install_spinnaker_packages_helper. rewrite Hoff. cbn [orb negb].
    intros Hrun. split.
    + revert Hrun. apply quiet_if; [apply quiet_ret|].
      repeat first [ apply quiet_provide_local_yml | progress hush ].
    + revert Hrun. apply idle_if; [apply idle_ret|]. unfold print.
      idle; first [ apply idle_get_spinnaker_dir | apply idle_check_run_quick
                  | apply idle_provide_local_yml ].
Qed.

End Nothing.

Lemma nospinnaker_installs_nothing_witness :
  let r := install_spinnaker Sample.calm only_dependencies Sample.installed in
  snd r = Return tt
  /\ package_manager_log (fst r) = []
  /\ spawned (fst r) = 0%nat.
Proof.
  destruct (nospinnaker_installs_nothing Sample.calm only_dependencies
              (Some "/mnt/release") Sample.installed
              (fst (install_spinnaker Sample.calm only_dependencies
                      Sample.installed))
              (Return tt))
    as (_ & Hq & Hs).
  - reflexivity.
  - vm_compute. reflexivity.
  - cbv zeta. split; [vm_compute; reflexivity|]. split; assumption.
Defined.


(** ** What the searches find, and the words of the package list *)

Section Found.

#[local] Arguments append !s1 s2 : simpl nomatch.

Lemma search_from_here (pat : Re.Pattern) whole pos s m :
  Re.search_from pat whole pos s = Some m ->
  Re.subject m = whole
  /\ (pos <= Re.start0 m)%nat
  /\ (Re.start0 m <= pos + String.length s)%nat
  /\ Re.start1 m = (Re.start0 m + String.length (Re.literal pat))%nat
  /\ (Re.start1 m <= Re.end1 m)%nat
  /\ Re.end0 m = S (Re.end1 m)
  /\ Re.match_here pat (Str.drop (Re.start0 m - pos) s)
     = Some (Re.end1 m - Re.start1 m)%nat.
Proof.
  revert pos; induction s as [|a s IH]; intros pos; rewrite search_from_eq;
    destruct (Re.match_here pat _) as [n|] eqn:Hm; try discriminate.
  - intros [= <-]. cbn [Re.subject Re.start0 Re.start1 Re.end0 Re.end1].
    rewrite Nat.sub_diag. cbn [Str.drop]. rewrite Hm.
    repeat split; try lia. f_equal. lia.
  - intros [= <-]. cbn [Re.subject Re.start0 Re.start1 Re.end0 Re.end1].
    rewrite Nat.sub_diag. cbn [Str.drop]. rewrite Hm.
    repeat split; try lia. f_equal. lia.
  - intros H. apply IH in H as (? & ? & ? & ? & ? & ? & Hh).
    cbn [String.length]. repeat split; try (assumption || lia).
    replace (Re.start0 m - pos)%nat with (S (Re.start0 m - S pos)) by lia.
    exact Hh.
Qed.

Lemma take_app_ge s t k :
  Str.take (String.length s + k) (s +:+ t) = s +:+ Str.take k t.
Proof. induction s as [|a s IH]; simpl; [reflexivity|now rewrite IH]. Qed.

Lemma one_line_take_line rest :
  one_line (Str.take (Re.line_length rest) rest).
Proof.
  unfold one_line. induction rest as [|a rest IH]; [reflexivity|].
  simpl. destruct (Re.is_newline a) eqn:E; [reflexivity|].
  simpl. rewrite E. now rewrite IH.
Qed.

Lemma take_line_and_newline rest :
  (Re.line_length rest < String.length rest)%nat ->
  Str.take (S (Re.line_length rest)) rest
  = Str.take (Re.line_length rest) rest +:+ Str.nl.
Proof.
  induction rest as [|a rest IH]; [simpl; lia|].
  cbn [Re.line_length]. destruct (Re.is_newline a) eqn:E.
  - intros _. cbn [Str.take append].
    apply Ascii.eqb_eq in E. subst a. now destruct rest.
  - cbn [String.length]. intros H.
    change (Str.take (S (S (Re.line_length rest))) (String a rest))
      with (String a (Str.take (S (Re.line_length rest)) rest)).
    rewrite IH by lia. reflexivity.
Qed.

(** X18: the options line the patch works on.  The match is the whole
    line with the newlines around it; the value is what follows the equals
    sign up to the end of that line, and it is never empty. *)
Theorem options_line_is_a_whole_line content m :
  Re.search Re.DefaultJvmOpts content = Some m ->
  Re.group0 m = Str.nl +:+ "DEFAULT_JVM_OPTS=" +:+ Re.group1 m +:+ Str.nl
  /\ Re.group1 m <> ""
  /\ one_line (Re.group1 m)
  /\ content = Str.take (Re.start0 m) content +:+ Re.group0 m
               +:+ Str.drop (Re.end0 m) content.
Proof.
  intros H. pose proof (group1_nonempty _ _ H) as (first & rest' & Hne).
  pose proof (search_from_here _ _ _ _ _ H)
    as (Hs & _ & _ & H1 & Hle & H0 & Hh).
  rewrite Nat.sub_0_r in Hh. unfold Re.match_here in Hh.
  change (String.length (Re.literal Re.DefaultJvmOpts)) with 18%nat in *.
  destruct (Str.startswith _ _) eqn:Hsw; [|discriminate].
  apply startswith_app in Hsw.
  change (String.length (Re.literal Re.DefaultJvmOpts)) with 18%nat in *.
  rewrite drop_drop in Hsw, Hh. rewrite <- H1 in Hsw, Hh.
  set (rest := Str.drop (Re.start1 m) content) in *.
  pose proof (greedy_line_some _ _ Hh) as (Hn & Hpos & Hlt).
  assert (Hg1 : Re.group1 m = Str.take (Re.line_length rest) rest).
  { unfold Re.group1. rewrite Hs. fold rest. now rewrite <- Hn. }
  assert (Hg0 : Re.group0 m
                = Str.nl +:+ "DEFAULT_JVM_OPTS=" +:+ Re.group1 m +:+ Str.nl).
  { unfold Re.group0. rewrite Hs, Hsw, H0.
    replace (S (Re.end1 m) - Re.start0 m)%nat
      with (String.length (Re.literal Re.DefaultJvmOpts)
            + S (Re.line_length rest))%nat
      by (change (String.length (Re.literal Re.DefaultJvmOpts)) with 18%nat;
          lia).
    rewrite take_app_ge, take_line_and_newline by lia.
    rewrite Hg1. reflexivity. }
  split; [exact Hg0|]. split; [now rewrite Hne|].
  split; [rewrite Hg1; apply one_line_take_line|].
  symmetry. unfold Re.group0. rewrite Hs.
  replace (Str.drop (Re.end0 m) content)
    with (Str.drop (Re.end0 m - Re.start0 m) (Str.drop (Re.start0 m) content))
    by (rewrite drop_drop; f_equal; lia).
  now rewrite !take_drop.
Qed.

Lemma lazy_quoted_some rest n :
  Re.lazy_quoted rest = Some n ->
  Str.take (S n) rest = Str.take n rest +:+ Str.dquote
  /\ has_dquote (Str.take n rest) = false
  /\ one_line (Str.take n rest).
Proof.
  revert n; induction rest as [|a rest IH]; intros n; [discriminate|].
  cbn [Re.lazy_quoted]. destruct (Re.is_dquote a) eqn:Eq.
  - intros [= <-]. apply Ascii.eqb_eq in Eq. subst a.
    repeat split.
  - destruct (Re.is_newline a) eqn:En; [discriminate|].
    destruct (Re.lazy_quoted rest) as [k|]; [|discriminate].
    intros [= <-]. destruct (IH k eq_refl) as (Ht & Hq & Hl).
    change (Str.take (S (S k)) (String a rest))
      with (String a (Str.take (S k) rest)).
    rewrite Ht. cbn [Str.take has_dquote]. rewrite Eq, Hq.
    repeat split. unfold one_line in *. cbn. rewrite En. now rewrite Hl.
Qed.

(** X19: the package list of the release configuration is the text
    between PACKAGE_LIST= followed by a double quote and the next double
    quote on the same line: the group holds no double quote and no
    newline. *)
Theorem package_list_found content m :
  Re.search Re.PackageList content = Some m ->
  Re.group0 m = Str.nl +:+ "PACKAGE_LIST=" +:+ Str.dquote +:+ Re.group1 m
                +:+ Str.dquote
  /\ has_dquote (Re.group1 m) = false
  /\ one_line (Re.group1 m).
Proof.
  intros H.
  pose proof (search_from_here _ _ _ _ _ H)
    as (Hs & _ & _ & H1 & Hle & H0 & Hh).
  rewrite Nat.sub_0_r in Hh. unfold Re.match_here in Hh.
  change (String.length (Re.literal Re.PackageList)) with 15%nat in *.
  destruct (Str.startswith _ _) eqn:Hsw; [|discriminate].
  apply startswith_app in Hsw.
  change (String.length (Re.literal Re.PackageList)) with 15%nat in *.
  rewrite drop_drop in Hsw, Hh. rewrite <- H1 in Hsw, Hh.
  set (rest := Str.drop (Re.start1 m) content) in *.
  apply lazy_quoted_some in Hh as (Ht & Hq & Hl).
  assert (Hg1 : Re.group1 m = Str.take (Re.end1 m - Re.start1 m) rest).
  { unfold Re.group1. now rewrite Hs. }
  rewrite Hg1. split; [|split; assumption].
  unfold Re.group0. rewrite Hs, Hsw, H0.
  replace (S (Re.end1 m) - Re.start0 m)%nat
    with (String.length (Re.literal Re.PackageList)
          + S (Re.end1 m - Re.start1 m))%nat
    by (change (String.length (Re.literal Re.PackageList)) with 15%nat; lia).
  rewrite take_app_ge, Ht. reflexivity.
Qed.

Lemma split_go_word w t s :
  has_space t = false ->
  Str.split_go w (t +:+ s) = Str.split_go (w +:+ t) s.
Proof.
  revert w; induction t as [|a t IH]; intros w.
  - intros _. now rewrite append_nil_r.
  - cbn [has_space]. intros H. apply orb_false_iff in H as [Ha Ht].
    cbn [append Str.split_go]. rewrite Ha, IH by assumption.
    now rewrite append_assoc.
Qed.

(** X20: a list of file names written with single spaces between them is
    read back as the same list: [split] undoes the joining, provided each
    name is not empty and has no white space in it. *)
Theorem split_of_joined_words words :
  Forall is_word words ->
  Str.split (Str.join_with " " words) = words.
Proof.
  unfold Str.split. induction 1 as [|t words [Hne Hsp] Hall IH];
    [reflexivity|].
  cbn [Str.join_with]. destruct words as [|t2 words].
  - rewrite <- (append_nil_r t) at 1. rewrite split_go_word by assumption.
    cbn. now destruct t.
  - rewrite split_go_word by assumption.
    cbn [append Str.split_go Str.is_space nat_of_ascii].
    change (Str.is_space " ") with true. cbn iota.
    destruct t; [contradiction|]. cbn [append]. f_equal. exact IH.
Qed.

Lemma split_go_words w s t :
  has_space w = false ->
  In t (Str.split_go w s) -> is_word t.
Proof.
  revert w; induction s as [|a s IH]; intros w Hw; cbn [Str.split_go].
  - destruct w; [intros []|]. intros [<-|[]]. split; [discriminate|assumption].
  - destruct (Str.is_space a) eqn:Ha.
    + destruct w.
      * now apply IH.
      * intros [<-|H]; [split; [discriminate|assumption]|].
        now apply (IH "").
    + apply IH. clear IH. induction w as [|b w IHw]; cbn in *.
      * now rewrite Ha.
      * apply orb_false_iff in Hw as [-> Hw]. now apply IHw.
Qed.

(** X21: every entry of a list read with [split] is a word: it is not
    empty and holds no white space, whatever the text was. *)
Theorem split_gives_words s t : In t (Str.split s) -> is_word t.
Proof.
  unfold Str.split. intros H.
  apply (split_go_words "" s t); [reflexivity|exact H].
Qed.

End Found.

Lemma options_line_is_a_whole_line_witness :
  exists m,
    Re.search Re.DefaultJvmOpts Sample.gate_script = Some m
    /\ Re.group0 m = Str.nl +:+ "DEFAULT_JVM_OPTS=" +:+ Re.group1 m +:+ Str.nl.
Proof.
  eexists. split; [vm_compute; reflexivity|].
  apply (options_line_is_a_whole_line Sample.gate_script). vm_compute. reflexivity.
Defined.

Lemma package_list_found_witness :
  exists m,
    Re.search Re.PackageList Sample.release_config = Some m
    /\ has_dquote (Re.group1 m) = false.
Proof.
  eexists. split; [vm_compute; reflexivity|].
  apply (package_list_found Sample.release_config). vm_compute. reflexivity.
Defined.

Lemma split_of_joined_words_witness :
  Str.split (Str.join_with " " ["gate_1.0_all.deb"; "deck_2.0_all.deb"])
  = ["gate_1.0_all.deb"; "deck_2.0_all.deb"].
Proof.
  apply split_of_joined_words.
  repeat constructor; discriminate.
Defined.

Lemma split_gives_words_witness : is_word "b_1.deb".
Proof.
  apply (split_gives_words "  a.deb b_1.deb   c.deb ").
  vm_compute. right. left. reflexivity.
Defined.

Lemma wait_stops_at_first_failure_witness :
  exists w' message,
    check_wait_for_copy_complete Sample.first_copy_fails Sample.two_jobs
      Sample.empty_disk
    = (w', Raise (RuntimeError message))
    /\ log w' = [EvCommunicate 0].
Proof.
  destruct (wait_stops_at_first_failure Sample.first_copy_fails []
              {| pid := 0; args := "sudo cp a b" |}
              [ {| pid := 1; args := "sudo cp c b" |} ] Sample.empty_disk)
    as (w' & message & Hrun & Hlog).
  - intros p w0 [].
  - intros w0. discriminate.
  - exists w', message. split; assumption.
Defined.

Lemma wait_joins_all_witness :
  exists w',
    check_wait_for_copy_complete Sample.calm Sample.two_jobs Sample.empty_disk
    = (w', Return tt)
    /\ log w' = [EvCommunicate 0; EvCommunicate 1].
Proof.
  destruct (wait_joins_all Sample.calm Sample.two_jobs Sample.empty_disk)
    as (w' & Hrun & Hlog).
  - intros p w0 _. reflexivity.
  - exists w'. split; assumption.
Defined.

Lemma subsystem_of_underscore_witness :
  subsystem_of "clouddriver_1.0_all.deb" = "clouddriver".
Proof.
  apply (subsystem_of_underscore "clouddriver" "1.0_all.deb"). reflexivity.
Defined.

Lemma for_each_install_log_any_witness :
  exists n,
    (n <= 3)%nat
    /\ package_manager_log
         (fst (for_each ["gate_1.0_all.deb"; "orca_1.0_all.deb";
                         "deck_2.0_all.deb"]
                 (install_package Sample.repair_fails Sample.defaults
                    "/opt/spinnaker/install") Sample.installed))
       = installs "/opt/spinnaker/install"
           (firstn n ["gate_1.0_all.deb"; "orca_1.0_all.deb";
                      "deck_2.0_all.deb"]).
Proof.
  destruct (for_each_install_log_any Sample.repair_fails Sample.defaults
              "/opt/spinnaker/install"
              ["gate_1.0_all.deb"; "orca_1.0_all.deb"; "deck_2.0_all.deb"]
              Sample.installed
              (fst (for_each ["gate_1.0_all.deb"; "orca_1.0_all.deb";
                              "deck_2.0_all.deb"]
                      (install_package Sample.repair_fails Sample.defaults
                         "/opt/spinnaker/install") Sample.installed))
              (Raise (Sample.failure repair
                        {| returncode := 100; stdout := "broken packages" |})))
    as (n & Hn & Hlog & _).
  - vm_compute. reflexivity.
  - exists n. split; [exact Hn|exact Hlog].
Defined.

(** ** Validation and the disk *)

Section ValidationFrame.

Variable host : Host.

Lemma run_quick_observe command w :
  run_quick host command Observe w
  = (with_disk w (files w, dirs w) (EvRunQuick command),
     Return (host_run host command w)).
Proof. reflexivity. Qed.

(** X22: however the check of the release path ends, by returning or by
    one of its errors, it has changed no file and no directory. *)
Theorem check_release_dir_keeps_the_disk options w w' r :
  check_release_dir host options w = (w', r) ->
  files w' = files w /\ dirs w' = dirs w.
Proof.
  unfold check_release_dir.
  destruct (release_path options) as [[|c rest]|];
    try (intros [= <- _]; now split).
  set (path := String c rest). unfold bind at 1, os_path_exists.
  destruct (exists_in w path); [intros [= <- _]; now split|].
  destruct (Str.startswith path "gs://");
    [|destruct (Str.startswith path "s3://");
      [|intros [= <- _]; now split]].
  - unfold check_google_path, bind at 1. unfold bind at 1.
    rewrite run_quick_observe.
    destruct (returncode (host_run host "gsutil --version" w) =? 0);
      cbn [negb raise ret]; [|intros [= <- _]; now split].
    unfold bind at 1. rewrite run_quick_observe.
    destruct (returncode _ =? 0); cbn [negb raise ret];
      intros [= <- _]; now split.
  - unfold check_s3_path, bind at 1. unfold bind at 1.
    rewrite run_quick_observe.
    destruct (returncode (host_run host "aws --version" w) =? 0);
      cbn [negb raise ret]; [|intros [= <- _]; now split].
    unfold bind at 1. rewrite run_quick_observe.
    destruct (returncode _ =? 0); cbn [negb raise ret];
      intros [= <- _]; now split.
Qed.

End ValidationFrame.

Lemma check_release_dir_keeps_the_disk_witness :
  files (fst (check_release_dir Sample.calm Sample.s3_without_region
                Sample.installed))
  = files Sample.installed.
Proof.
  apply (check_release_dir_keeps_the_disk Sample.calm Sample.s3_without_region
           Sample.installed _ (Return tt)).
  vm_compute. reflexivity.
Defined.

(** ** A failed direct install, a failed repair *)

Section Agreement.

Variables host other : Host.
Hypothesis agree : differ_in_dpkg_only host other.

Lemma bind_ext {A B} (c1 c2 : Py A) (k1 k2 : A -> Py B) w :
  c1 w = c2 w -> (forall a w1, k1 a w1 = k2 a w1) ->
  bind c1 k1 w = bind c2 k2 w.
Proof.
  intros Hc Hk. unfold bind. rewrite Hc.
  destruct (c2 w) as [w1 [a|e]]; [apply Hk|reflexivity].
Qed.

Lemma for_each_ext {A} (l : list A) (body1 body2 : A -> Py unit) :
  (forall x w, body1 x w = body2 x w) ->
  forall w, for_each l body1 w = for_each l body2 w.
Proof.
  intros H. induction l as [|x l IH]; intros w; cbn [for_each].
  - reflexivity.
  - apply bind_ext; [apply H|intros _; apply IH].
Qed.

Lemma act_agrees a command status w :
  act other a command status w = act host a command status w.
Proof.
  destruct agree as (Hdisk & _).
  destruct a; cbn [act]; rewrite ?Hdisk; reflexivity.
Qed.

Lemma shell_agrees ev command a w :
  Str.startswith command "sudo dpkg -i " = false ->
  shell other ev command a w = shell host ev command a w.
Proof.
  intros Hc. destruct agree as (_ & _ & _ & Hrun).
  cbn [shell]. now rewrite (Hrun _ _ Hc), act_agrees.
Qed.

Lemma check_run_quick_agrees command a w :
  Str.startswith command "sudo dpkg -i " = false ->
  check_run_quick other command a w = check_run_quick host command a w.
Proof.
  intros Hc. unfold check_run_quick.
  apply bind_ext; [apply shell_agrees, Hc|].
  intros r w1. destruct agree as (_ & _ & Herr & _). now rewrite Herr.
Qed.

Lemma check_run_and_monitor_agrees command a w :
  Str.startswith command "sudo dpkg -i " = false ->
  check_run_and_monitor other command a w
  = check_run_and_monitor host command a w.
Proof.
  intros Hc. unfold check_run_and_monitor.
  apply bind_ext; [apply shell_agrees, Hc|].
  intros r w1. destruct agree as (_ & _ & Herr & _). now rewrite Herr.
Qed.

Lemma safe_mkdir_agrees dir w : safe_mkdir other dir w = safe_mkdir host dir w.
Proof.
  unfold safe_mkdir. apply bind_ext; [|reflexivity].
  apply shell_agrees. reflexivity.
Qed.

Lemma get_spinnaker_dir_agrees options w :
  get_spinnaker_dir other options w = get_spinnaker_dir host options w.
Proof.
  unfold get_spinnaker_dir. apply bind_ext; [reflexivity|].
  intros present w1. apply bind_ext; [|reflexivity].
  destruct (negb present); [|reflexivity].
  apply bind_ext; [reflexivity|]. intros _ w2. apply safe_mkdir_agrees.
Qed.

Lemma communicate_agrees j w : communicate other j w = communicate host j w.
Proof.
  destruct agree as (Hdisk & Hwait & _).
  unfold communicate. now rewrite Hwait, Hdisk.
Qed.

Lemma check_wait_for_copy_complete_agrees jobs w :
  check_wait_for_copy_complete other jobs w
  = check_wait_for_copy_complete host jobs w.
Proof.
  unfold check_wait_for_copy_complete. apply for_each_ext.
  intros j w1. apply bind_ext; [apply communicate_agrees|reflexivity].
Qed.

Lemma inject_spring_config_location_agrees options subsystem w :
  inject_spring_config_location other options subsystem w
  = inject_spring_config_location host options subsystem w.
Proof.
  unfold inject_spring_config_location.
  destruct (String.eqb subsystem "deck"); [reflexivity|]. cbv zeta.
  apply bind_ext; [reflexivity|]. intros content w1.
  destruct (Re.search _ _) as [m|]; [|reflexivity].
  destruct (0 <=? _); [reflexivity|].
  apply bind_ext; [reflexivity|]. intros first w2.
  apply bind_ext; [reflexivity|]. intros temp w3.
  apply bind_ext; [apply check_run_quick_agrees; reflexivity|].
  intros _ w4.
  apply bind_ext; [apply check_run_quick_agrees; reflexivity|].
  reflexivity.
Qed.

(** The result of the direct install is dropped, and what it leaves on
    disk is not a matter of its exit status. *)
Lemma install_package_agrees options package_dir pkg w :
  install_package other options package_dir pkg w
  = install_package host options package_dir pkg w.
Proof.
  unfold install_package.
  apply bind_ext; [reflexivity|]. intros _ w1.
  unfold bind at 1 3. cbn [run_and_monitor shell act].
  destruct agree as (Hdisk & _). rewrite Hdisk.
  apply bind_ext; [apply check_run_and_monitor_agrees; reflexivity|].
  intros _ w2. apply inject_spring_config_location_agrees.
Qed.

Lemma helper_agrees options bucket w :
  _install_spinnaker_packages_helper other options bucket w
  = _install_spinnaker_packages_helper host options bucket w.
Proof.
  unfold _install_spinnaker_packages_helper.
  destruct (negb (spinnaker options)); [reflexivity|].
  apply bind_ext; [reflexivity|]. intros _ w1.
  apply bind_ext.
  { unfold get_config_install_dir.
    apply bind_ext; [apply get_spinnaker_dir_agrees|reflexivity]. }
  intros _ w2.
  apply bind_ext; [apply get_spinnaker_dir_agrees|]. intros dir w3.
  apply bind_ext; [reflexivity|]. intros package_list w4.
  apply bind_ext; [reflexivity|]. intros _ w5. cbv zeta.
  apply bind_ext; [apply safe_mkdir_agrees|]. intros _ w6.
  apply bind_ext; [reflexivity|]. intros jobs w7.
  apply bind_ext; [apply check_wait_for_copy_complete_agrees|]. intros _ w8.
  apply bind_ext;
    [apply for_each_ext; intros; apply install_package_agrees|].
  intros _ w9.
  apply bind_ext; [apply check_run_and_monitor_agrees; reflexivity|].
  reflexivity.
Qed.

End Agreement.

Section Repair.

Variable host : Host.
Variable n : nat.
Hypothesis fails : repair_fails_after host n.

Lemma mends_nothing_quiet {A} (c : Py A) : quiet c -> mends_nothing c.
Proof.
  intros Hq w w' r H. apply Hq in H. unfold repairs.
  rewrite <- (repairs_of_log (log w')), <- (repairs_of_log (log w)).
  fold (package_manager_log w'). fold (package_manager_log w).
  now rewrite H.
Qed.

Lemma stops_at_mends_nothing {A} (c : Py A) :
  mends_nothing c -> stops_at host n c.
Proof. intros Hc w w' r Hw H. left. now rewrite (Hc _ _ _ H). Qed.

Lemma stops_at_quiet {A} (c : Py A) : quiet c -> stops_at host n c.
Proof. intros H. apply stops_at_mends_nothing, mends_nothing_quiet, H. Qed.

Lemma stops_at_bind {A B} (c : Py A) (k : A -> Py B) :
  stops_at host n c -> (forall a, stops_at host n (k a)) ->
  stops_at host n (bind c k).
Proof.
  intros Hc Hk w w' r Hw. unfold bind.
  destruct (c w) as [w1 [a|e]] eqn:E.
  - destruct (Hc _ _ _ Hw E) as [H1|(w0 & _ & _ & _ & [=])].
    apply Hk, H1.
  - intros [= <- <-].
    destruct (Hc _ _ _ Hw E) as [H1|(w0 & H1 & H2 & H3 & [= ->])].
    + now left.
    + right. exists w0. auto.
Qed.

Lemma stops_at_for_each {A} (l : list A) body :
  (forall x, stops_at host n (body x)) -> stops_at host n (for_each l body).
Proof.
  intros H. induction l as [|x l IH]; cbn [for_each].
  - apply stops_at_quiet, quiet_ret.
  - apply stops_at_bind; auto.
Qed.

Lemma repairs_with_disk w d e :
  repairs (with_disk w d e)
  = (repairs w + if is_repair e then 1 else 0)%nat.
Proof.
  unfold repairs, with_disk. cbn [log].
  rewrite List.filter_app, length_app. cbn. now destruct (is_repair e).
Qed.

Lemma stops_at_run_and_monitor command a :
  stops_at host n (run_and_monitor host command a).
Proof.
  apply stops_at_mends_nothing. intros w w' r.
  rewrite run_and_monitor_log. intros [= <- _].
  rewrite repairs_with_disk. cbn [is_repair]. lia.
Qed.

(** The repair itself: with fewer than [n] repairs before it the count
    stays within [n]; with [n] before it, it exits non-zero and raises. *)
Lemma stops_at_repair :
  stops_at host n (check_run_and_monitor host repair External).
Proof.
  intros w w' r Hw. rewrite check_run_and_monitor_eq. cbv zeta.
  intros [= <- <-].
  destruct (Nat.eq_dec (repairs w) n) as [E|E].
  - right. exists w. pose proof (fails w E) as Hbad.
    destruct (Z.eqb_spec (returncode (host_run host repair w)) 0) as [Z|_];
      [contradiction|].
    repeat split; assumption.
  - left. rewrite repairs_with_disk. cbn. lia.
Qed.

Lemma stops_at_install_package options package_dir pkg :
  stops_at host n (install_package host options package_dir pkg).
Proof.
  unfold install_package.
  apply stops_at_bind; [apply stops_at_quiet, quiet_print|]. intros _.
  apply stops_at_bind; [apply stops_at_run_and_monitor|]. intros _.
  apply stops_at_bind; [apply stops_at_repair|]. intros _.
  apply stops_at_quiet, quiet_inject_spring_config_location.
Qed.

Lemma stops_at_helper options bucket :
  stops_at host n (_install_spinnaker_packages_helper host options bucket).
Proof.
  unfold _install_spinnaker_packages_helper.
  destruct (negb (spinnaker options)); [apply stops_at_quiet, quiet_ret|].
  apply stops_at_bind; [apply stops_at_quiet, quiet_print|]. intros _.
  apply stops_at_bind;
    [apply stops_at_quiet, quiet_get_config_install_dir|]. intros _.
  apply stops_at_bind; [apply stops_at_quiet, quiet_get_spinnaker_dir|].
  intros dir.
  apply stops_at_bind; [apply stops_at_quiet, quiet_read_package_list|].
  intros package_list.
  apply stops_at_bind; [apply stops_at_quiet, quiet_print|]. intros _.
  cbv zeta.
  apply stops_at_bind; [apply stops_at_quiet, quiet_safe_mkdir|]. intros _.
  apply stops_at_bind.
  { apply stops_at_quiet, quiet_collect. intros pkg.
    apply quiet_bind; [apply quiet_join_bucket|].
    intros source. apply quiet_start_copy_file. }
  intros jobs.
  apply stops_at_bind;
    [apply stops_at_quiet, quiet_check_wait_for_copy_complete|]. intros _.
  apply stops_at_bind;
    [apply stops_at_for_each; intros; apply stops_at_install_package|].
  intros _.
  apply stops_at_bind; [apply stops_at_repair|]. intros _.
  apply stops_at_quiet, quiet_ret.
Qed.

End Repair.



(** On the sample machine, with a host on which every direct install
    exits 1, the step goes through all three packages and returns. *)
Example failed_installs_do_not_stop_the_step :
  let run := _install_spinnaker_packages_helper Sample.dpkg_fails
               Sample.defaults (Some "/mnt/release") Sample.installed in
  snd run = Return tt
  /\ package_manager_log (fst run)
     = installs "/opt/spinnaker/install"
         ["gate_1.0_all.deb"; "orca_1.0_all.deb"; "deck_2.0_all.deb"]
       ++ [EvCheckRunAndMonitor repair].
Proof. vm_compute. split; reflexivity. Qed.

(** With a host on which every direct install exits 0 and every repair
    exits 100, the step ends at the first repair, with the error of that
    repair; the other packages are not touched. *)
Example failed_repair_stops_the_step :
  let run := _install_spinnaker_packages_helper Sample.repair_fails
               Sample.defaults (Some "/mnt/release") Sample.installed in
  snd run
  = Raise (Sample.failure repair
             {| returncode := 100; stdout := "broken packages" |})
  /\ package_manager_log (fst run)
     = [ EvRunAndMonitor "sudo dpkg -i /opt/spinnaker/install/gate_1.0_all.deb";
         EvCheckRunAndMonitor repair ].
Proof. vm_compute. split; reflexivity. Qed.

(** With a host on which only the last pass exits non-zero, every package
    is installed and patched, and the step still ends in the error of the
    repair. *)
Example failed_last_pass_fails_the_step :
  let run := _install_spinnaker_packages_helper last_repair_fails
               Sample.defaults (Some "/mnt/release") Sample.installed in
  snd run
  = Raise (Sample.failure repair
             {| returncode := 100; stdout := "broken packages" |})
  /\ package_manager_log (fst run)
     = installs "/opt/spinnaker/install"
         ["gate_1.0_all.deb"; "orca_1.0_all.deb"; "deck_2.0_all.deb"]
       ++ [EvCheckRunAndMonitor repair].
Proof. vm_compute. split; reflexivity. Qed.

(** ** The copies within the package step *)

Section Copies.

#[local] Arguments append !s1 s2 : simpl nomatch.

Variable host : Host.

Lemma plain_ret {A} (a : A) : plain (ret a).
Proof.
  intros w w' r [= <- _]. split; [reflexivity|].
  exists []. now rewrite app_nil_r.
Qed.

Lemma plain_raise {A} e : plain (@raise A e).
Proof.
  intros w w' r [= <- _]. split; [reflexivity|].
  exists []. now rewrite app_nil_r.
Qed.

Lemma plain_bind {A B} (c : Py A) (k : A -> Py B) :
  plain c -> (forall a, plain (k a)) -> plain (bind c k).
Proof.
  intros Hc Hk w w' r. unfold bind.
  destruct (c w) as [w1 [a|e]] eqn:E.
  - intros H. destruct (Hc _ _ _ E) as (Hs1 & l1 & Hl1 & Hp1).
    destruct (Hk _ _ _ _ H) as (Hs2 & l2 & Hl2 & Hp2).
    split; [congruence|]. exists (l1 ++ l2).
    rewrite Hl2, Hl1, <- app_assoc, forallb_app, Hp1, Hp2. auto.
  - intros [= <- _]. eapply Hc, E.
Qed.

Lemma plain_if {A} (b : bool) (c1 c2 : Py A) :
  plain c1 -> plain c2 -> plain (if b then c1 else c2).
Proof. now destruct b. Qed.

Lemma plain_emit e : is_plain e = true -> plain (emit e).
Proof.
  intros He w w' r [= <- _]. split; [reflexivity|].
  exists [e]. cbn. now rewrite He.
Qed.

Lemma plain_os_path_exists path : plain (os_path_exists path).
Proof.
  intros w w' r [= <- _]. split; [reflexivity|].
  exists []. now rewrite app_nil_r.
Qed.

Lemma plain_read_file path : plain (read_file path).
Proof.
  intros w w' r. unfold read_file.
  destruct (files w !! path); intros [= <- _]; (split; [reflexivity|]);
    exists []; now rewrite app_nil_r.
Qed.

Lemma plain_write_temp content : plain (write_temp content).
Proof.
  intros w w' r [= <- _]. split; [reflexivity|].
  exists []. cbn. now rewrite app_nil_r.
Qed.

Lemma plain_run_quick command a : plain (run_quick host command a).
Proof.
  intros w w' r [= <- _]. split; [reflexivity|].
  exists [EvRunQuick command]. auto.
Qed.

Ltac plain :=
  repeat first
    [ apply plain_ret | apply plain_raise
    | apply plain_emit; reflexivity
    | apply plain_os_path_exists | apply plain_read_file
    | apply plain_write_temp | apply plain_run_quick
    | apply plain_if
    | apply plain_bind; [|intros ?]
    | progress cbv zeta ].

Lemma plain_check_run_quick command a :
  plain (check_run_quick host command a).
Proof. unfold check_run_quick. plain. Qed.

Lemma plain_safe_mkdir dir : plain (safe_mkdir host dir).
Proof. unfold safe_mkdir. plain. Qed.

Lemma plain_get_spinnaker_dir options : plain (get_spinnaker_dir host options).
Proof.
  unfold get_spinnaker_dir, print. plain.
Qed.

Lemma plain_read_package_list dir : plain (read_package_list dir).
Proof. unfold read_package_list. plain. destruct (Re.search _ _); plain. Qed.

Lemma plain_inject_spring_config_location options subsystem :
  plain (inject_spring_config_location host options subsystem).
Proof.
  unfold inject_spring_config_location, stderr_write. plain.
  destruct (Re.search _ _); plain.
  unfold first_char. destruct (Re.group1 _); plain.
Qed.

Lemma filter_plain (p : Event -> bool) l :
  (forall e, is_plain e = true -> p e = false) ->
  forallb is_plain l = true -> List.filter p l = [].
Proof.
  intros Hp. induction l as [|e l IH]; [reflexivity|].
  cbn. intros [He Hl]%andb_prop. now rewrite (Hp e He), IH.
Qed.

Lemma copyless_plain {A} (c : Py A) : plain c -> copyless c.
Proof.
  intros Hc w w' r H. destruct (Hc _ _ _ H) as (_ & l & Hlog & Hl).
  unfold copy_log.
  rewrite Hlog, List.filter_app, (filter_plain is_copy l).
  - apply app_nil_r.
  - now intros [].
  - exact Hl.
Qed.

Lemma quiet_plain {A} (c : Py A) : plain c -> quiet c.
Proof.
  intros Hc w w' r H. destruct (Hc _ _ _ H) as (_ & l & Hlog & Hl).
  unfold package_manager_log.
  rewrite Hlog, List.filter_app, (filter_plain is_package_manager l).
  - apply app_nil_r.
  - now intros [].
  - exact Hl.
Qed.

Lemma copyless_bind {A B} (c : Py A) (k : A -> Py B) :
  copyless c -> (forall a, copyless (k a)) -> copyless (bind c k).
Proof.
  intros Hc Hk w w' r. unfold bind.
  destruct (c w) as [w1 [a|e]] eqn:E.
  - intros H. rewrite (Hk _ _ _ _ H). eapply Hc, E.
  - intros [= <- _]. eapply Hc, E.
Qed.

Lemma copyless_for_each {A} (l : list A) body :
  (forall x, copyless (body x)) -> copyless (for_each l body).
Proof.
  intros H. induction l as [|x l IH]; cbn [for_each].
  - apply copyless_plain, plain_ret.
  - apply copyless_bind; auto.
Qed.

Lemma copy_log_with_disk w d e :
  copy_log (with_disk w d e) = copy_log w ++ (if is_copy e then [e] else []).
Proof.
  unfold copy_log, with_disk. cbn [log].
  rewrite List.filter_app. cbn. now destruct (is_copy e).
Qed.

Lemma copyless_run_and_monitor command a :
  copyless (run_and_monitor host command a).
Proof.
  intros w w' r [= <- _]. rewrite copy_log_with_disk. apply app_nil_r.
Qed.

Lemma copyless_check_run_and_monitor command :
  copyless (check_run_and_monitor host command External).
Proof.
  intros w w' r. rewrite check_run_and_monitor_eq. intros [= <- _].
  rewrite copy_log_with_disk. apply app_nil_r.
Qed.

Lemma copyless_install_package options package_dir pkg :
  copyless (install_package host options package_dir pkg).
Proof.
  unfold install_package.
  apply copyless_bind; [apply copyless_plain, plain_emit; reflexivity|].
  intros _.
  apply copyless_bind; [apply copyless_run_and_monitor|]. intros _.
  apply copyless_bind; [apply copyless_check_run_and_monitor|]. intros _.
  apply copyless_plain, plain_inject_spring_config_location.
Qed.

(** The command line [start_copy_file] builds. *)
Lemma start_copy_file_command options source target w :
  start_copy_file options source target w
  = popen (copy_command options source target) w.
Proof.
  unfold start_copy_file, copy_command, quoted. cbv zeta.
  destruct (Str.startswith source "gs://");
    [|destruct (Str.startswith source "s3://")];
    rewrite ?append_assoc; reflexivity.
Qed.

(** Starting the copies, one package after the other. *)
Lemma collect_copies options bucket package_dir package_list w w' jobs :
  collect package_list (fun pkg =>
    source <- join_bucket bucket pkg ;;
    start_copy_file options source package_dir) w = (w', Return jobs) ->
  map pid jobs = seq (spawned w) (length package_list)
  /\ log w' = log w ++ map EvPopen (map args jobs)
  /\ forall b, bucket = Some b ->
       map args jobs
       = map (fun pkg => copy_command options (Str.path_join b [pkg])
                           package_dir) package_list.
Proof.
  revert w w' jobs.
  induction package_list as [|pkg rest IH]; intros w w' jobs; cbn [collect].
  - intros [= <- <-]. cbn. rewrite app_nil_r. auto.
  - unfold bind at 1. unfold bind at 1.
    assert (Hjoin : exists s, join_bucket bucket pkg w = (w, s)
                    /\ forall b, bucket = Some b ->
                         s = Return (Str.path_join b [pkg])).
    { unfold join_bucket. destruct bucket as [b|].
      - eexists. split; [reflexivity|]. now intros ? [= <-].
      - destruct (Str.startswith pkg "/"); eexists;
          (split; [reflexivity|discriminate]). }
    destruct Hjoin as (s & -> & Hs). destruct s as [source|e]; [|discriminate].
    rewrite start_copy_file_command. unfold popen at 1.
    unfold bind at 1.
    match goal with
    | |- context [collect rest _ ?w1] =>
        destruct (collect rest _ w1) as [w2 [others|e]] eqn:Hrest;
          [apply IH in Hrest as (Hpid & Hlog & Hargs)|discriminate]
    end.
    unfold ret. intros [= <- <-].
    cbn [map pid args length seq spawned log] in *.
    rewrite Hpid, Hlog, <- app_assoc. repeat split.
    intros b Hb. rewrite (Hargs b Hb).
    specialize (Hs b Hb). injection Hs as ->. reflexivity.
Qed.

(** With a release path every copy is started. *)
Lemma collect_copies_returns options b package_dir package_list w :
  exists w' jobs,
    collect package_list (fun pkg =>
      source <- join_bucket (Some b) pkg ;;
      start_copy_file options source package_dir) w = (w', Return jobs).
Proof.
  revert w. induction package_list as [|pkg rest IH]; intros w;
    cbn [collect].
  - eexists _, _. reflexivity.
  - unfold bind at 1. unfold bind at 1.
    change (join_bucket (Some b) pkg w)
      with (w, Return (Str.path_join b [pkg])).
    cbv beta iota. rewrite start_copy_file_command. unfold popen at 1.
    unfold bind at 1.
    match goal with
    | |- context [collect rest _ ?w1] =>
        destruct (IH w1) as (w2 & others & ->)
    end.
    eexists _, _. reflexivity.
Qed.

(** However the wait ends, the jobs it joined are the first ones of the
    list, in list order; it returns only when it joined them all, and it
    raises as soon as a job exits non-zero. *)
Lemma wait_joins_a_prefix jobs w w' r :
  check_wait_for_copy_complete host jobs w = (w', r) ->
  exists n,
    (n <= length jobs)%nat
    /\ log w' = log w ++ joined (firstn n jobs)
    /\ (r = Return tt -> n = length jobs)
    /\ ((exists j, In j jobs /\ forall w0, fst (host_wait host j w0) <> 0) ->
        exists e, r = Raise e).
Proof.
  unfold check_wait_for_copy_complete. revert w.
  induction jobs as [|j jobs IH]; intros w; cbn [for_each].
  - intros [= <- <-]. exists 0%nat. cbn. rewrite app_nil_r.
    repeat split; auto. now intros (j & [] & _).
  - unfold bind at 1. unfold bind at 1. rewrite communicate_eq.
    destruct (Z.eqb_spec (fst (host_wait host j w)) 0) as [E|E];
      cbn [negb raise ret].
    + intros H. apply IH in H as (n & Hn & Hlog & Hall & Hbad).
      exists (S n). cbn [length firstn joined map].
      split; [lia|]. split; [|split; [auto|]].
      * rewrite Hlog. cbn [with_disk log]. now rewrite <- app_assoc.
      * intros (p & [<-|Hp] & Hfail); [now apply Hfail in E|].
        apply Hbad. eauto.
    + intros [= <- <-]. exists 1%nat. cbn [length firstn joined map].
      split; [lia|]. split; [reflexivity|]. split; [discriminate|]. eauto.
Qed.

Lemma plainly_after_refl w : plainly_after w w.
Proof. split; [reflexivity|]. exists []. now rewrite app_nil_r. Qed.

Lemma plainly_after_trans w1 w2 w3 :
  plainly_after w1 w2 -> plainly_after w2 w3 -> plainly_after w1 w3.
Proof.
  intros (Hs1 & l1 & Hl1 & Hp1) (Hs2 & l2 & Hl2 & Hp2).
  split; [congruence|]. exists (l1 ++ l2).
  rewrite Hl2, Hl1, <- app_assoc, forallb_app, Hp1, Hp2. auto.
Qed.

Lemma plainly_after_quiet w w' :
  plainly_after w w' -> package_manager_log w' = package_manager_log w.
Proof.
  intros (_ & l & Hlog & Hl). unfold package_manager_log.
  rewrite Hlog, List.filter_app, (filter_plain is_package_manager l).
  - apply app_nil_r.
  - now intros [].
  - exact Hl.
Qed.

Lemma plainly_after_copyless w w' :
  plainly_after w w' -> copy_log w' = copy_log w.
Proof.
  intros (_ & l & Hlog & Hl). unfold copy_log.
  rewrite Hlog, List.filter_app, (filter_plain is_copy l).
  - apply app_nil_r.
  - now intros [].
  - exact Hl.
Qed.

(** What the package step does before it starts the copies: it prints,
    looks up the installation root and the package list and makes the
    install directory.  Either it ends there in an error, or it goes on
    with the copies for the package list of the release configuration. *)
Lemma before_the_copies options bucket content m w w' r :
  spinnaker options = true ->
  files w !! Str.path_join (root_of options) ["release_config.cfg"]
  = Some content ->
  Re.search Re.PackageList content = Some m ->
  _install_spinnaker_packages_helper host options bucket w = (w', r) ->
  (plainly_after w w' /\ exists e, r = Raise e)
  \/ exists w0,
       plainly_after w w0
       /\ copy_and_install host options bucket
            (Str.path_join (root_of options) ["install"])
            (Str.split (Re.group1 m)) w0 = (w', r).
Proof.
  intros Hon Hfile Hm. unfold _install_spinnaker_packages_helper.
  rewrite Hon. cbn [negb].
  unfold bind at 1.
  destruct (print _ w) as [w1 [[]|e]] eqn:H1; [|discriminate].
  assert (Hf1 : files w1 = files w) by (now injection H1 as <-).
  apply (plain_emit (EvPrint _) eq_refl) in H1.
  unfold bind at 1, get_config_install_dir. unfold bind at 1.
  destruct (get_spinnaker_dir host options w1) as [w2 [r2|e]] eqn:H2.
  2:{ intros [= <- <-]. left. apply plain_get_spinnaker_dir in H2.
      split; [eapply plainly_after_trans; eassumption|eauto]. }
  pose proof (get_spinnaker_dir_files _ _ _ _ _ H2) as Hf2.
  apply plain_get_spinnaker_dir in H2.
  pose proof (plainly_after_trans _ _ _ H1 H2) as H12.
  unfold ret at 1. unfold bind at 1.
  destruct (get_spinnaker_dir host options w2) as [w3 [r3|e]] eqn:H3.
  2:{ intros [= <- <-]. left. apply plain_get_spinnaker_dir in H3.
      split; [eapply plainly_after_trans; eassumption|eauto]. }
  pose proof (get_spinnaker_dir_files _ _ _ _ _ H3) as Hf3.
  pose proof (get_spinnaker_dir_creates _ _ _ _ _ H3) as [-> _].
  apply plain_get_spinnaker_dir in H3.
  pose proof (plainly_after_trans _ _ _ H12 H3) as H13.
  unfold bind at 1, read_package_list, bind at 1, read_file.
  rewrite Hf3, Hf2, Hf1, Hfile, Hm. unfold ret at 1.
  unfold bind at 1.
  destruct (print _ w3) as [w4 [[]|e]] eqn:H4; [|discriminate].
  apply (plain_emit (EvPrint _) eq_refl) in H4.
  pose proof (plainly_after_trans _ _ _ H13 H4) as H14.
  cbv zeta. unfold bind at 1.
  destruct (safe_mkdir host _ w4) as [w5 [[]|e]] eqn:H5.
  2:{ intros [= <- <-]. left. apply plain_safe_mkdir in H5.
      split; [eapply plainly_after_trans; eassumption|eauto]. }
  apply plain_safe_mkdir in H5.
  intros Hrun. right. exists w5.
  split; [eapply plainly_after_trans; eassumption|exact Hrun].
Qed.

Lemma firstn_seq_le start n len :
  (n <= len)%nat -> firstn n (seq start len) = seq start n.
Proof.
  revert start len. induction n as [|n IH]; intros start len Hn;
    [reflexivity|].
  destruct len as [|len]; [lia|]. cbn. f_equal. apply IH. lia.
Qed.

Lemma filter_copy_popen commands :
  List.filter is_copy (map EvPopen commands) = map EvPopen commands.
Proof.
  induction commands as [|c l IH]; [reflexivity|]. cbn. now rewrite IH.
Qed.

Lemma filter_copy_communicate pids :
  List.filter is_copy (map EvCommunicate pids) = map EvCommunicate pids.
Proof.
  induction pids as [|p l IH]; [reflexivity|]. cbn. now rewrite IH.
Qed.

(** The copy requests once the copies were started and the first [n] of
    them joined. *)
Lemma copy_log_of_the_copies w w0 w1 w2 jobs commands n :
  plainly_after w w0 ->
  map pid jobs = seq (spawned w0) (length commands) ->
  log w1 = log w0 ++ map EvPopen commands ->
  log w2 = log w1 ++ joined (firstn n jobs) ->
  (n <= length commands)%nat ->
  copy_log w2
  = copy_log w ++ map EvPopen commands
    ++ map EvCommunicate (seq (spawned w) n).
Proof.
  intros Hplain Hpid Hlog1 Hlog2 Hn.
  unfold copy_log at 1. rewrite Hlog2, Hlog1, !List.filter_app.
  fold (copy_log w0). rewrite (plainly_after_copyless _ _ Hplain).
  destruct Hplain as (Hs & _).
  unfold joined. rewrite <- (map_map pid EvCommunicate), <- firstn_map, Hpid.
  rewrite firstn_seq_le by exact Hn.
  now rewrite Hs, filter_copy_popen, filter_copy_communicate, <- app_assoc.
Qed.

(** X10: in the package step every copy is started before the first one is
    waited for.  With a release path, a step that gets as far as the
    copies starts one copy per package of the list, in list order, each
    from the package's path under the release path to the install
    directory, with the command line that goes with the scheme of the
    source; only then does it wait, for the copies in the order in which
    they were started, for all of them if the step returns. *)
Theorem copies_are_all_started_before_the_first_wait
  options b content m w w' r :
  spinnaker options = true ->
  files w !! Str.path_join (root_of options) ["release_config.cfg"]
  = Some content ->
  Re.search Re.PackageList content = Some m ->
  _install_spinnaker_packages_helper host options (Some b) w = (w', r) ->
  let package_list := Str.split (Re.group1 m) in
  let package_dir := Str.path_join (root_of options) ["install"] in
  let commands :=
    map (fun pkg => copy_command options (Str.path_join b [pkg]) package_dir)
      package_list in
  (copy_log w' = copy_log w /\ exists e, r = Raise e)
  \/ exists n,
       (n <= length package_list)%nat
       /\ copy_log w'
          = copy_log w ++ map EvPopen commands
            ++ map EvCommunicate (seq (spawned w) n)
       /\ (r = Return tt -> n = length package_list).
Proof.
  intros Hon Hfile Hm Hrun package_list package_dir commands.
  destruct (before_the_copies _ _ _ _ _ _ _ Hon Hfile Hm Hrun)
    as [(Hplain & He)|(w0 & Hplain & Htail)].
  { left. split; [apply plainly_after_copyless, Hplain|exact He]. }
  right. revert Htail. unfold copy_and_install.
  fold package_list. fold package_dir. unfold bind at 1.
  destruct (collect_copies_returns options b package_dir package_list w0)
    as (w1 & jobs & Hjobs).
  rewrite Hjobs.
  apply collect_copies in Hjobs as (Hpid & Hlog1 & Hargs).
  specialize (Hargs b eq_refl). fold commands in Hargs.
  rewrite Hargs in Hlog1.
  assert (Hpid' : map pid jobs = seq (spawned w0) (length commands)).
  { unfold commands. now rewrite length_map. }
  assert (Hlen : length commands = length package_list).
  { unfold commands. now rewrite length_map. }
  unfold bind at 1.
  destruct (check_wait_for_copy_complete host jobs w1) as [w2 [[]|e]] eqn:H2;
    apply wait_joins_a_prefix in H2 as (n & Hn & Hlog2 & Hall & _);
    rewrite <- (length_map pid jobs), Hpid, length_seq in Hn, Hall.
  - intros Htail.
    assert (Hrest : copy_log w' = copy_log w2).
    { revert Htail. apply copyless_bind;
        [apply copyless_for_each; intros; apply copyless_install_package|].
      intros _. apply copyless_bind;
        [apply copyless_check_run_and_monitor|].
      intros _. apply copyless_plain, plain_ret. }
    exists n. split; [exact Hn|]. split; [|intros _; auto].
    rewrite Hrest.
    apply (copy_log_of_the_copies w w0 w1 w2 jobs); (assumption || lia).
  - intros [= <- <-].
    exists n. split; [exact Hn|]. split; [|discriminate].
    apply (copy_log_of_the_copies w w0 w1 w2 jobs); (assumption || lia).
Qed.

(** X17: if one of the copies exits non-zero, nothing is installed.  When
    the copy started for some package of the list always exits non-zero,
    the package step ends in an error, and it has asked nothing of the
    package manager: no direct install, no repair. *)
Theorem failed_copy_means_nothing_is_installed
  options bucket content m i w w' r :
  spinnaker options = true ->
  files w !! Str.path_join (root_of options) ["release_config.cfg"]
  = Some content ->
  Re.search Re.PackageList content = Some m ->
  (i < length (Str.split (Re.group1 m)))%nat ->
  (forall j w0, pid j = (spawned w + i)%nat ->
                fst (host_wait host j w0) <> 0) ->
  _install_spinnaker_packages_helper host options bucket w = (w', r) ->
  package_manager_log w' = package_manager_log w
  /\ exists e, r = Raise e.
Proof.
  intros Hon Hfile Hm Hi Hbad Hrun.
  destruct (before_the_copies _ _ _ _ _ _ _ Hon Hfile Hm Hrun)
    as [(Hplain & He)|(w0 & Hplain & Htail)].
  { split; [apply plainly_after_quiet, Hplain|exact He]. }
  pose proof (plainly_after_quiet _ _ Hplain) as Hq0.
  destruct Hplain as (Hs & _).
  revert Htail. unfold copy_and_install. unfold bind at 1.
  destruct (collect _ _ w0) as [w1 [jobs|e]] eqn:H1.
  2:{ intros [= <- <-]. split; [|eauto]. rewrite <- Hq0. revert H1.
      apply quiet_collect. intros pkg.
      apply quiet_bind; [apply quiet_join_bucket|].
      intros source. apply quiet_start_copy_file. }
  pose proof (collect_copies _ _ _ _ _ _ _ H1) as (Hpid & _ & _).
  assert (Hq1 : package_manager_log w1 = package_manager_log w0).
  { revert H1. apply quiet_collect. intros pkg.
    apply quiet_bind; [apply quiet_join_bucket|].
    intros source. apply quiet_start_copy_file. }
  assert (Hj : exists j, In j jobs
                         /\ forall w2, fst (host_wait host j w2) <> 0).
  { assert (Hin : In (spawned w + i)%nat (map pid jobs)).
    { rewrite Hpid, Hs. apply in_seq. lia. }
    apply in_map_iff in Hin as (j & Hj & Hin).
    exists j. split; [exact Hin|]. intros w2. now apply Hbad. }
  unfold bind at 1.
  destruct (check_wait_for_copy_complete host jobs w1) as [w2 [[]|e]] eqn:H2.
  - apply wait_joins_a_prefix in H2 as (n & _ & _ & _ & Hraise).
    destruct (Hraise Hj) as (e & [=]).
  - intros [= <- <-]. split; [|eauto].
    apply quiet_check_wait_for_copy_complete in H2. congruence.
Qed.

End Copies.

Lemma copies_are_all_started_before_the_first_wait_witness :
  let run := _install_spinnaker_packages_helper Sample.calm Sample.defaults
               (Some "/mnt/release") Sample.installed in
  let cp pkg :=
    EvPopen ("sudo cp " +:+ quoted ("/mnt/release/" +:+ pkg) +:+ " "
             +:+ quoted "/opt/spinnaker/install") in
  copy_log (fst run)
  = [ cp "gate_1.0_all.deb"; cp "orca_1.0_all.deb"; cp "deck_2.0_all.deb";
      EvCommunicate 0; EvCommunicate 1; EvCommunicate 2 ].
Proof.
  intros run cp.
  assert (Hfile : files Sample.installed
                    !! Str.path_join (root_of Sample.defaults)
                         ["release_config.cfg"]
                  = Some Sample.release_config)
    by (vm_compute; reflexivity).
  assert (Hm : Re.search Re.PackageList Sample.release_config
               = Some {| Re.subject := Sample.release_config;
                         Re.start0 := 11; Re.end0 := 77;
                         Re.start1 := 26; Re.end1 := 76 |})
    by (vm_compute; reflexivity).
  destruct (copies_are_all_started_before_the_first_wait Sample.calm
              Sample.defaults "/mnt/release" _ _ Sample.installed
              (fst run) (snd run) eq_refl Hfile Hm
              (surjective_pairing run))
    as [(_ & e & He)|(n & _ & Hlog & Hall)].
  - vm_compute in He. discriminate He.
  - rewrite Hlog, Hall by (vm_compute; reflexivity).
    vm_compute. reflexivity.
Defined.

Lemma failed_copy_means_nothing_is_installed_witness :
  let run := _install_spinnaker_packages_helper Sample.first_copy_fails
               Sample.defaults (Some "/mnt/release") Sample.installed in
  package_manager_log (fst run) = []
  /\ exists e, snd run = Raise e.
Proof.
  intros run.
  assert (Hfile : files Sample.installed
                    !! Str.path_join (root_of Sample.defaults)
                         ["release_config.cfg"]
                  = Some Sample.release_config)
    by (vm_compute; reflexivity).
  assert (Hm : Re.search Re.PackageList Sample.release_config
               = Some {| Re.subject := Sample.release_config;
                         Re.start0 := 11; Re.end0 := 77;
                         Re.start1 := 26; Re.end1 := 76 |})
    by (vm_compute; reflexivity).
  assert (Hbad : forall j w0,
             pid j = (spawned Sample.installed + 0)%nat ->
             fst (host_wait Sample.first_copy_fails j w0) <> 0).
  { intros j w0 Hj. cbn [host_wait Sample.first_copy_fails].
    change (spawned Sample.installed + 0)%nat with 0%nat in Hj.
    rewrite Hj. cbn. discriminate. }
  refine (failed_copy_means_nothing_is_installed Sample.first_copy_fails
            Sample.defaults (Some "/mnt/release") _ _ 0%nat Sample.installed
            (fst run) (snd run) eq_refl Hfile Hm _ Hbad
            (surjective_pairing run)).
  vm_compute. lia.
Defined.

(** On the sample machine, when the first copy exits 1 the step ends in
    the error of the wait, after the first wait. *)
Example failed_copy_stops_the_step :
  let run := _install_spinnaker_packages_helper Sample.first_copy_fails
               Sample.defaults (Some "/mnt/release") Sample.installed in
  snd run = Raise (RuntimeError "COPY FAILED with 1: No such object")
  /\ List.filter is_copy (log (fst run))
     = map EvPopen
         (map (fun pkg => copy_command Sample.defaults
                            ("/mnt/release/" +:+ pkg) "/opt/spinnaker/install")
            ["gate_1.0_all.deb"; "orca_1.0_all.deb"; "deck_2.0_all.deb"])
       ++ [EvCommunicate 0].
Proof. vm_compute. split; reflexivity. Qed.
